(** * ProductForm: image reconciliation of the product create/edit form

    A shallow embedding of [src/components/ProductForm.tsx] (with the
    [Product] type of [types/product.ts]).  The component keeps three image
    collections in React state -- [newImageFiles], [existingImages] and
    [imagesToDelete] -- and reconciles them against the object store and the
    record store in [handleSubmit].

    Handlers are written in a small state-and-exception monad over the React
    store and a trace of the outside world (console, storage requests,
    record-store requests, router, revoked object URLs).  The two stores,
    [uuidv4] and [URL.createObjectURL] are oracles gathered in [Env]. *)

From Stdlib Require Import String Ascii List ZArith Lia Bool Arith.
Import ListNotations.
Local Open Scope string_scope.
Local Open Scope list_scope.

(** ** The JavaScript primitives the component uses *)

Module JS.

(** [s.split(sep)] for a one-character separator: never an empty array,
    [''.split(sep)] is [['']]. *)
Fixpoint split (sep : ascii) (s : string) : list string :=
  match s with
  | EmptyString => [EmptyString]
  | String c s' =>
      if Ascii.eqb c sep then EmptyString :: split sep s'
      else match split sep s' with
           | [] => [String c EmptyString]
           | h :: t => String c h :: t
           end
  end.

(** The value returned by [arr.pop()]: the last element, [undefined]
    ([None]) on an empty array. *)
Fixpoint pop {A : Type} (l : list A) : option A :=
  match l with
  | [] => None
  | [x] => Some x
  | _ :: t => pop t
  end.

(** [arr[i]]: [undefined] outside [0 .. length-1]. *)
Definition index {A : Type} (l : list A) (i : Z) : option A :=
  if (i <? 0)%Z then None else nth_error l (Z.to_nat i).

(** [arr.filter((_, index) => p(index))], positions counted from [from]. *)
Fixpoint filter_index {A : Type} (p : Z -> bool) (from : Z) (l : list A)
  : list A :=
  match l with
  | [] => []
  | x :: t =>
      if p from then x :: filter_index p (from + 1)%Z t
      else filter_index p (from + 1)%Z t
  end.

(** [index !== indexToRemove] on numbers. *)
Definition strict_neq (a b : Z) : bool := negb (a =? b)%Z.

(** A [string | undefined] inside a template literal. *)
Definition interpolate (v : option string) : string :=
  match v with
  | Some s => s
  | None => "undefined"
  end.

(** Truthiness of a [string | undefined]: the empty string is falsy. *)
Definition truthy_string (v : option string) : bool :=
  match v with
  | Some EmptyString => false
  | Some _ => true
  | None => false
  end.

(** Truthiness of a [number | undefined]: [0] is falsy. *)
Definition truthy_number (v : option Z) : bool :=
  match v with
  | Some n => negb (n =? 0)%Z
  | None => false
  end.

End JS.

(** ** Data model *)

(** [types/product.ts].  The two [number] fields are modelled as integers:
    the form only tests the [id] for truthiness and passes it on, and it
    stores and passes on the [price] without any arithmetic. *)
Module Product.
Record t : Type := mk {
  id : option Z;
  name : string;
  description : string;
  price : Z;
  images : list string;
  created_at : option string
}.
End Product.

(** [Omit<Product, 'id'>] as the object literal of [handleSubmit] builds it:
    exactly the four fields [name], [description], [price], [images]. *)
Module ProductData.
Record t : Type := mk {
  name : string;
  description : string;
  price : Z;
  images : list string
}.
End ProductData.

(** A browser [File]: its [name] and the identity of its contents. *)
Record File : Type := mkFile {
  file_name : string;
  file_blob : nat
}.

(** An entry of [newImageFiles]. *)
Record NewImage : Type := mkNewImage {
  file : File;
  preview : string
}.

(** The React state of [ProductForm].  [imagesToDelete] is declared
    [string[]], but [removeExistingImage] appends [existingImages[index]]
    unchecked, so at run time a slot can hold [undefined] ([None]). *)
Record FormState : Type := mkFormState {
  name : string;
  description : string;
  price : Z;
  newImageFiles : list NewImage;
  existingImages : list string;
  imagesToDelete : list (option string);
  isLoading : bool;
  selectedImageUrl : option string
}.

(** ** The outside world *)

(** Values that are thrown or returned as [error]. *)
Inductive error : Type :=
| TypeError (msg : string)
| StoreError (msg : string).

Inductive ConsoleLine : Type :=
| ConsoleError (label : string) (e : error)
| ConsoleLog (label : string) (e : error).

(** Requests sent to [supabase.storage.from('product-images')]. *)
Inductive StorageCall : Type :=
| Upload (path : string) (f : File)
| Remove (paths : list string).

(** Requests sent to [supabase.from('products')]. *)
Inductive DbCall : Type :=
| Update (data : ProductData.t) (id : Z)
| Insert (data : ProductData.t).

Record World : Type := mkWorld {
  revoked : list string;
  console : list ConsoleLine;
  storage_log : list StorageCall;
  db_log : list DbCall;
  router_log : list string;
  uuid_next : nat;
  blob_next : nat
}.

(** The collaborators.  [uuidv4] and [createObjectURL] answer according to
    how many times they were called before; a store answers [None] for
    success and [Some e] for [{ error: e }]. *)
Record Env : Type := mkEnv {
  uuidv4 : nat -> string;
  createObjectURL : nat -> File -> string;
  storage_upload : string -> File -> option error;
  storage_remove : list string -> option error;
  getPublicUrl : string -> string;
  db_update : ProductData.t -> Z -> option error;
  db_insert : ProductData.t -> option error
}.

(** The React store together with the world. *)
Record Sys : Type := mkSys {
  form : FormState;
  world : World
}.

(** ** A state-and-exception monad for handlers *)

Inductive result (A : Type) : Type :=
| Ok (a : A)
| Throw (e : error).
Arguments Ok {A} a.
Arguments Throw {A} e.

Definition M (A : Type) : Type := Sys -> result A * Sys.

Definition ret {A : Type} (a : A) : M A := fun s => (Ok a, s).

Definition bind {A B : Type} (m : M A) (k : A -> M B) : M B :=
  fun s =>
    match m s with
    | (Ok a, s1) => k a s1
    | (Throw e, s1) => (Throw e, s1)
    end.

Definition throw {A : Type} (e : error) : M A := fun s => (Throw e, s).

Declare Scope js_scope.
Delimit Scope js_scope with js.
Notation "x <- m ;; k" := (bind m (fun x => k))
  (at level 100, m at next level, right associativity) : js_scope.
Notation "m ;; k" := (bind m (fun _ => k))
  (at level 100, right associativity) : js_scope.
Local Open Scope js_scope.

(** [try { body } catch (e) { handler e } finally { fin }]: the effects of
    a failed body stay; an exception of [fin] replaces the outcome. *)
Definition try_catch_finally {A : Type}
    (body : M A) (handler : error -> M A) (fin : M unit) : M A :=
  fun s =>
    let (r, s1) := body s in
    let (r', s2) := match r with
                    | Ok a => (Ok a, s1)
                    | Throw e => handler e s1
                    end in
    match fin s2 with
    | (Ok _, s3) => (r', s3)
    | (Throw e, s3) => (Throw e, s3)
    end.

(** [await Promise.all(l.map(async x => f x))].  [map] starts every
    callback, so the effects of all of them happen, also when one rejects;
    the result keeps the order of [l], and a rejection of the earliest
    rejecting callback is what [Promise.all] rejects with.  The requests of
    one phase run concurrently in the source; here their effects are
    recorded in the order of [l], and before what follows the phase (in a
    browser the answers arrive in any order, and after an early rejection
    they arrive while the caller already goes on). *)
Fixpoint promise_all_map {A B : Type} (f : A -> M B) (l : list A)
  : M (list B) :=
  match l with
  | [] => ret []
  | x :: t =>
      fun s =>
        let (r, s1) := f x s in
        let (rs, s2) := promise_all_map f t s1 in
        (match r, rs with
         | Throw e, _ => Throw e
         | Ok _, Throw e => Throw e
         | Ok b, Ok bs => Ok (b :: bs)
         end, s2)
  end.

(** [l.forEach(f)]. *)
Fixpoint forEach {A : Type} (f : A -> M unit) (l : list A) : M unit :=
  match l with
  | [] => ret tt
  | x :: t => f x ;; forEach f t
  end.

(** *** Primitive effects *)

Definition upd_world (f : World -> World) : M unit :=
  fun s => (Ok tt, mkSys (form s) (f (world s))).

Definition upd_form (f : FormState -> FormState) : M unit :=
  fun s => (Ok tt, mkSys (f (form s)) (world s)).

Definition revokeObjectURL (url : string) : M unit :=
  upd_world (fun w =>
    mkWorld (revoked w ++ [url]) (console w) (storage_log w) (db_log w)
            (router_log w) (uuid_next w) (blob_next w)).

Definition console_print (line : ConsoleLine) : M unit :=
  upd_world (fun w =>
    mkWorld (revoked w) (console w ++ [line]) (storage_log w) (db_log w)
            (router_log w) (uuid_next w) (blob_next w)).

Definition console_error (label : string) (e : error) : M unit :=
  console_print (ConsoleError label e).

Definition console_log (label : string) (e : error) : M unit :=
  console_print (ConsoleLog label e).

Definition storage_request (c : StorageCall) : M unit :=
  upd_world (fun w =>
    mkWorld (revoked w) (console w) (storage_log w ++ [c]) (db_log w)
            (router_log w) (uuid_next w) (blob_next w)).

Definition db_request (c : DbCall) : M unit :=
  upd_world (fun w =>
    mkWorld (revoked w) (console w) (storage_log w) (db_log w ++ [c])
            (router_log w) (uuid_next w) (blob_next w)).

Definition router_push (href : string) : M unit :=
  upd_world (fun w =>
    mkWorld (revoked w) (console w) (storage_log w) (db_log w)
            (router_log w ++ [href]) (uuid_next w) (blob_next w)).

Definition fresh_uuid (env : Env) : M string :=
  fun s =>
    let w := world s in
    (Ok (uuidv4 env (uuid_next w)),
     mkSys (form s)
       (mkWorld (revoked w) (console w) (storage_log w) (db_log w)
                (router_log w) (S (uuid_next w)) (blob_next w))).

Definition fresh_object_url (env : Env) (f : File) : M string :=
  fun s =>
    let w := world s in
    (Ok (createObjectURL env (blob_next w) f),
     mkSys (form s)
       (mkWorld (revoked w) (console w) (storage_log w) (db_log w)
                (router_log w) (uuid_next w) (S (blob_next w)))).

(** [supabase.storage.from('product-images').upload(path, file)]. *)
Definition supabase_upload (env : Env) (path : string) (f : File)
  : M (option error) :=
  storage_request (Upload path f) ;; ret (storage_upload env path f).

(** [supabase.storage.from('product-images').remove(paths)]. *)
Definition supabase_remove (env : Env) (paths : list string)
  : M (option error) :=
  storage_request (Remove paths) ;; ret (storage_remove env paths).

(** [supabase.from('products').update(data).eq('id', id)]. *)
Definition supabase_update (env : Env) (data : ProductData.t) (id : Z)
  : M (option error) :=
  db_request (Update data id) ;; ret (db_update env data id).

(** [supabase.from('products').insert(data)]. *)
Definition supabase_insert (env : Env) (data : ProductData.t)
  : M (option error) :=
  db_request (Insert data) ;; ret (db_insert env data).

(** State setters of the component. *)
Definition setName (v : string) : M unit :=
  upd_form (fun st =>
    mkFormState v (description st) (price st) (newImageFiles st)
                (existingImages st) (imagesToDelete st) (isLoading st)
                (selectedImageUrl st)).

Definition setDescription (v : string) : M unit :=
  upd_form (fun st =>
    mkFormState (name st) v (price st) (newImageFiles st)
                (existingImages st) (imagesToDelete st) (isLoading st)
                (selectedImageUrl st)).

Definition setPrice (v : Z) : M unit :=
  upd_form (fun st =>
    mkFormState (name st) (description st) v (newImageFiles st)
                (existingImages st) (imagesToDelete st) (isLoading st)
                (selectedImageUrl st)).

(** [setNewImageFiles(prev => f prev)]; a plain value is [fun _ => v]. *)
Definition setNewImageFiles (f : list NewImage -> list NewImage) : M unit :=
  upd_form (fun st =>
    mkFormState (name st) (description st) (price st) (f (newImageFiles st))
                (existingImages st) (imagesToDelete st) (isLoading st)
                (selectedImageUrl st)).

Definition setExistingImages (v : list string) : M unit :=
  upd_form (fun st =>
    mkFormState (name st) (description st) (price st) (newImageFiles st)
                v (imagesToDelete st) (isLoading st) (selectedImageUrl st)).

(** [setImagesToDelete(prev => f prev)]. *)
Definition setImagesToDelete
    (f : list (option string) -> list (option string)) : M unit :=
  upd_form (fun st =>
    mkFormState (name st) (description st) (price st) (newImageFiles st)
                (existingImages st) (f (imagesToDelete st)) (isLoading st)
                (selectedImageUrl st)).

Definition setIsLoading (v : bool) : M unit :=
  upd_form (fun st =>
    mkFormState (name st) (description st) (price st) (newImageFiles st)
                (existingImages st) (imagesToDelete st) v
                (selectedImageUrl st)).

Definition setSelectedImageUrl (v : option string) : M unit :=
  upd_form (fun st =>
    mkFormState (name st) (description st) (price st) (newImageFiles st)
                (existingImages st) (imagesToDelete st) (isLoading st) v).

(** [arr.map(f)] for a synchronous callback with effects. *)
Fixpoint array_map {A B : Type} (f : A -> M B) (l : list A) : M (list B) :=
  match l with
  | [] => ret []
  | x :: t => b <- f x ;; bs <- array_map f t ;; ret (b :: bs)
  end.

(** [arr.filter((url): url is string => url !== null)]. *)
Fixpoint non_null {A : Type} (l : list (option A)) : list A :=
  match l with
  | [] => []
  | Some a :: t => a :: non_null t
  | None :: t => non_null t
  end.

(** ** The component [ProductForm] *)

Section ProductForm.

Variable env : Env.
Variable initialProduct : option Product.t.

(** [initialProduct?.id]. *)
Definition initialProduct_id : option Z :=
  match initialProduct with
  | Some p => Product.id p
  | None => None
  end.

(** The [useState] initialisers: [initialProduct?.name || ''],
    [initialProduct?.description || ''], [initialProduct?.price || 0],
    [initialProduct?.images || []]; both lists of pending work start
    empty. *)
Definition initialState : FormState :=
  {| name := match initialProduct with
             | Some p => Product.name p
             | None => EmptyString
             end;
     description := match initialProduct with
                    | Some p => Product.description p
                    | None => EmptyString
                    end;
     price := match initialProduct with
              | Some p => Product.price p
              | None => 0%Z
              end;
     newImageFiles := [];
     existingImages := match initialProduct with
                       | Some p => Product.images p
                       | None => []
                       end;
     imagesToDelete := [];
     isLoading := false;
     selectedImageUrl := None |}.

(** Every handler below takes [cap], the state its closure captured at
    the render that created it, and acts on the store through setters. *)

Definition onDrop (acceptedFiles : list File) : M unit :=
  newImagePreviews <-
    array_map (fun f =>
                 url <- fresh_object_url env f ;;
                 ret {| file := f; preview := url |})
              acceptedFiles ;;
  setNewImageFiles (fun prev => prev ++ newImagePreviews).

Definition removeNewImage (cap : FormState) (indexToRemove : Z) : M unit :=
  match JS.index (newImageFiles cap) indexToRemove with
  | None =>
      throw (TypeError
               "Cannot read properties of undefined (reading 'preview')")
  | Some entry =>
      revokeObjectURL (preview entry) ;;
      let newImages :=
        JS.filter_index (fun index => JS.strict_neq index indexToRemove)
                        0 (newImageFiles cap) in
      setNewImageFiles (fun _ => newImages)
  end.

Definition removeExistingImage (cap : FormState) (indexToRemove : Z)
  : M unit :=
  let imageToRemove := JS.index (existingImages cap) indexToRemove in
  setImagesToDelete (fun prev => prev ++ [imageToRemove]) ;;
  let newImages :=
    JS.filter_index (fun index => JS.strict_neq index indexToRemove)
                    0 (existingImages cap) in
  setExistingImages newImages.

(** The callback of [newImageFiles.map] in [uploadImages]. *)
Definition upload_one (entry : NewImage) : M (option string) :=
  let fileExt := JS.pop (JS.split "." (file_name (file entry))) in
  uuid <- fresh_uuid env ;;
  let fileName := (uuid ++ "." ++ JS.interpolate fileExt)%string in
  let filePath := ("products/" ++ fileName)%string in
  error <- supabase_upload env filePath (file entry) ;;
  match error with
  | Some e => console_error "Upload error:" e ;; ret None
  | None => ret (Some (getPublicUrl env filePath))
  end.

Definition uploadImages (cap : FormState) : M (list string) :=
  urls <- promise_all_map upload_one (newImageFiles cap) ;;
  ret (non_null urls).

(** The callback of [imagesToDelete.map] in [deleteOldImages]; on an
    [undefined] slot [imageUrl.split] throws. *)
Definition delete_one (imageUrl : option string) : M unit :=
  match imageUrl with
  | None =>
      throw (TypeError
               "Cannot read properties of undefined (reading 'split')")
  | Some url =>
      let fileName := JS.pop (JS.split "/" url) in
      if JS.truthy_string fileName then
        error <- supabase_remove env
                   [("products/" ++ JS.interpolate fileName)%string] ;;
        match error with
        | Some e => console_error "Delete error:" e
        | None => ret tt
        end
      else ret tt
  end.

Definition deleteOldImages (cap : FormState) : M unit :=
  promise_all_map delete_one (imagesToDelete cap) ;; ret tt.

(** The two branches of the record-store write of [handleSubmit]. *)
Definition update_product (productData : ProductData.t) (id : Z)
  : M unit :=
  error <- supabase_update env productData id ;;
  match error with
  | Some e => console_log "Error updating product:" e ;; throw e
  | None => ret tt
  end.

Definition insert_product (productData : ProductData.t) : M unit :=
  error <- supabase_insert env productData ;;
  match error with
  | Some e => throw e
  | None => ret tt
  end.

(** [if (initialProduct?.id) { update } else { insert }]: the test is the
    truthiness of the id. *)
Definition write_product (productData : ProductData.t) : M unit :=
  match initialProduct_id with
  | Some id =>
      if JS.truthy_number (Some id) then update_product productData id
      else insert_product productData
  | None => insert_product productData
  end.

(** [e.preventDefault()] touches nothing that is modelled here. *)
Definition handleSubmit (cap : FormState) : M unit :=
  setIsLoading true ;;
  try_catch_finally
    (deleteOldImages cap ;;
     newUploadedUrls <- uploadImages cap ;;
     let finalImages := existingImages cap ++ newUploadedUrls in
     let productData :=
       {| ProductData.name := name cap;
          ProductData.description := description cap;
          ProductData.price := price cap;
          ProductData.images := finalImages |} in
     write_product productData ;;
     router_push "/")
    (fun error => console_error "Error saving product:" error)
    (forEach (fun image => revokeObjectURL (preview image))
             (newImageFiles cap) ;;
     setIsLoading false ;;
     setNewImageFiles (fun _ => []) ;;
     setImagesToDelete (fun _ => [])).

(** ** An edit session *)

(** What the user can do with the mounted form. *)
Inductive action : Type :=
| TypeName (v : string)
| TypeDescription (v : string)
| TypePrice (v : Z)
| DropFiles (acceptedFiles : list File)
| ClickRemoveNew (index : Z)
| ClickRemoveExisting (index : Z)
| ClickPreview (url : string)
| ClosePreview
| SubmitForm.

(** The handler an action runs, built at the render of [cap]. *)
Definition handler (cap : FormState) (a : action) : M unit :=
  match a with
  | TypeName v => setName v
  | TypeDescription v => setDescription v
  | TypePrice v => setPrice v
  | DropFiles fs => onDrop fs
  | ClickRemoveNew i => removeNewImage cap i
  | ClickRemoveExisting i => removeExistingImage cap i
  | ClickPreview url => setSelectedImageUrl (Some url)
  | ClosePreview => setSelectedImageUrl None
  | SubmitForm => handleSubmit cap
  end.

(** One event: the handler of the current render runs to completion.  For
    the asynchronous [handleSubmit] this is a submission during which no
    other event is handled; [submit_with_drop] further down is a
    submission during which files are dropped. *)
Definition fire (a : action) (s : Sys) : result unit * Sys :=
  handler (form s) a s.

(** An exception that escapes an event handler is reported by the
    browser; the component stays mounted with the store as it is. *)
Definition dispatch (s : Sys) (a : action) : Sys := snd (fire a s).

Definition run (acts : list action) (s : Sys) : Sys :=
  fold_left dispatch acts s.

(** [handleSubmit] called for the current render. *)
Definition submit (s : Sys) : result unit * Sys := fire SubmitForm s.

End ProductForm.

Definition empty_world : World :=
  {| revoked := []; console := []; storage_log := []; db_log := [];
     router_log := []; uuid_next := 0; blob_next := 0 |}.

(** The form just mounted. *)
Definition mount (initialProduct : option Product.t) : Sys :=
  {| form := initialState initialProduct; world := empty_world |}.

(** ** Closed forms of what the handlers request *)

Section Plans.

Variable env : Env.
Variable initialProduct : option Product.t.

(** The path [uploadImages] builds for a file when [uuidv4] is called for
    the [n]-th time. *)
Definition upload_path (n : nat) (f : File) : string :=
  ("products/" ++ uuidv4 env n ++ "."
     ++ JS.interpolate (JS.pop (JS.split "." (file_name f))))%string.

(** The upload requests of a list of pending entries, in order. *)
Fixpoint upload_plan (n : nat) (l : list NewImage) : list (string * File) :=
  match l with
  | [] => []
  | x :: t => (upload_path n (file x), file x) :: upload_plan (S n) t
  end.

Definition upload_ok (req : string * File) : bool :=
  match storage_upload env (fst req) (snd req) with
  | None => true
  | Some _ => false
  end.

Definition upload_answer (req : string * File) : option string :=
  if upload_ok req then Some (getPublicUrl env (fst req)) else None.

Definition upload_complaint (req : string * File) : list ConsoleLine :=
  match storage_upload env (fst req) (snd req) with
  | None => []
  | Some e => [ConsoleError "Upload error:" e]
  end.

(** The URLs of the entries whose upload succeeded, in order. *)
Definition uploaded_urls (n : nat) (l : list NewImage) : list string :=
  map (fun req => getPublicUrl env (fst req))
      (filter upload_ok (upload_plan n l)).

(** The path [deleteOldImages] derives from a slot of [imagesToDelete]:
    none for [undefined] and none when the last segment is empty. *)
Definition delete_path (imageUrl : option string) : list string :=
  match imageUrl with
  | None => []
  | Some url =>
      let fileName := JS.pop (JS.split "/" url) in
      if JS.truthy_string fileName
      then [("products/" ++ JS.interpolate fileName)%string]
      else []
  end.

Definition delete_plan (l : list (option string)) : list string :=
  flat_map delete_path l.

Definition delete_complaint (path : string) : list ConsoleLine :=
  match storage_remove env [path] with
  | None => []
  | Some e => [ConsoleError "Delete error:" e]
  end.

(** All slots hold a string, as the declared type [string[]] says. *)
Definition all_strings (l : list (option string)) : bool :=
  forallb (fun slot => match slot with Some _ => true | None => false end) l.

Definition split_type_error : error :=
  TypeError "Cannot read properties of undefined (reading 'split')".

Definition preview_type_error : error :=
  TypeError "Cannot read properties of undefined (reading 'preview')".

(** The entries [onDrop] builds when [createObjectURL] has been called [n]
    times before. *)
Fixpoint drop_plan (n : nat) (fs : list File) : list NewImage :=
  match fs with
  | [] => []
  | f :: t =>
      {| file := f; preview := createObjectURL env n f |} :: drop_plan (S n) t
  end.

(** The list [handleSubmit] computes as [finalImages] (when it gets that
    far) for the render [s]. *)
Definition final_images (s : Sys) : list string :=
  existingImages (form s)
    ++ uploaded_urls (uuid_next (world s)) (newImageFiles (form s)).

Definition product_data (s : Sys) : ProductData.t :=
  {| ProductData.name := name (form s);
     ProductData.description := description (form s);
     ProductData.price := price (form s);
     ProductData.images := final_images s |}.

(** The request [write_product] sends, and the answer of the store. *)
Definition write_call (data : ProductData.t) : DbCall :=
  match initialProduct_id initialProduct with
  | Some id => if JS.truthy_number (Some id) then Update data id
               else Insert data
  | None => Insert data
  end.

Definition write_answer (data : ProductData.t) : option error :=
  match write_call data with
  | Update d id => db_update env d id
  | Insert d => db_insert env d
  end.

Definition write_complaint (data : ProductData.t) : list ConsoleLine :=
  match write_call data, write_answer data with
  | Update _ _, Some e => [ConsoleLog "Error updating product:" e]
  | _, _ => []
  end.

(** The console lines and the navigation that follow the write. *)
Definition saving_complaint (answer : option error) : list ConsoleLine :=
  match answer with
  | Some e => [ConsoleError "Error saving product:" e]
  | None => []
  end.

Definition navigation (answer : option error) : list string :=
  match answer with
  | Some _ => []
  | None => ["/"]
  end.

(** The store after [handleSubmit]: only the two pending lists and the busy
    flag are written. *)
Definition form_after_submit (st : FormState) : FormState :=
  mkFormState (name st) (description st) (price st) []
              (existingImages st) [] false (selectedImageUrl st).

Definition world_after_submit (s : Sys) : World :=
  let st := form s in
  let w := world s in
  let removes := delete_plan (imagesToDelete st) in
  let uploads := upload_plan (uuid_next w) (newImageFiles st) in
  let data := product_data s in
  if all_strings (imagesToDelete st) then
    mkWorld (revoked w ++ map preview (newImageFiles st))
            (console w ++ flat_map delete_complaint removes
               ++ flat_map upload_complaint uploads
               ++ write_complaint data
               ++ saving_complaint (write_answer data))
            (storage_log w ++ map (fun p => Remove [p]) removes
               ++ map (fun req => Upload (fst req) (snd req)) uploads)
            (db_log w ++ [write_call data])
            (router_log w ++ navigation (write_answer data))
            (uuid_next w + length (newImageFiles st))
            (blob_next w)
  else
    mkWorld (revoked w ++ map preview (newImageFiles st))
            (console w ++ flat_map delete_complaint removes
               ++ [ConsoleError "Error saving product:" split_type_error])
            (storage_log w ++ map (fun p => Remove [p]) removes)
            (db_log w) (router_log w) (uuid_next w) (blob_next w).

(** [removeExistingImage] is only called on positions that exist. *)
Definition in_range_action (s : Sys) (a : action) : Prop :=
  match a with
  | ClickRemoveExisting i =>
      (0 <= i < Z.of_nat (length (existingImages (form s))))%Z
  | _ => True
  end.

(** A sequence of actions in which every [removeExistingImage] is called on
    a position that exists when its turn comes. *)
Fixpoint in_range_run (acts : list action) (s : Sys) : Prop :=
  match acts with
  | [] => True
  | a :: rest =>
      in_range_action s a
      /\ in_range_run rest (dispatch env initialProduct s a)
  end.

End Plans.

(** The record a record-store request carries. *)
Definition call_data (c : DbCall) : ProductData.t :=
  match c with
  | Update d _ => d
  | Insert d => d
  end.

(** ** Counting URLs in the two lists *)

(** How often a URL occurs in [existingImages]. *)
Definition times (u : string) (l : list string) : nat :=
  count_occ string_dec l u.

(** How often a URL is marked in [imagesToDelete]; [undefined] slots mark
    nothing. *)
Definition times_marked (u : string) (l : list (option string)) : nat :=
  times u (non_null l).

(** No URL occurs twice over [existingImages] and [imagesToDelete]
    together. *)
Definition separated (st : FormState) : Prop :=
  forall u, times u (existingImages st) + times_marked u (imagesToDelete st)
            <= 1.

(** ** Sample collaborators and products *)

Definition digit (n : nat) : string :=
  String (ascii_of_nat (48 + n)) EmptyString.

(** Stores that refuse the uploads of the files named in [bad_files], and
    refuse removals and record writes when told to. *)
Definition sample_env (bad_files : list string)
    (remove_fails write_fails : bool) : Env :=
  {| uuidv4 := fun n => ("uuid" ++ digit n)%string;
     createObjectURL := fun n _ => ("blob:" ++ digit n)%string;
     storage_upload := fun _ f =>
       if existsb (String.eqb (file_name f)) bad_files
       then Some (StoreError "upload refused") else None;
     storage_remove := fun _ =>
       if remove_fails then Some (StoreError "remove refused") else None;
     getPublicUrl := fun path => ("https://cdn.test/" ++ path)%string;
     db_update := fun _ _ =>
       if write_fails then Some (StoreError "update refused") else None;
     db_insert := fun _ =>
       if write_fails then Some (StoreError "insert refused") else None |}.

Definition url_A : string := "https://cdn.test/products/A.png".
Definition url_B : string := "https://cdn.test/products/B.png".

Definition sample_product (id : option Z) (images : list string)
  : Product.t :=
  {| Product.id := id;
     Product.name := "Lamp";
     Product.description := "A desk lamp";
     Product.price := 25;
     Product.images := images;
     Product.created_at := None |}.

Definition file_1 : File := {| file_name := "front.png"; file_blob := 1 |}.
Definition file_2 : File := {| file_name := "back.jpeg"; file_blob := 2 |}.

(** ** More about a session of the form *)

From Stdlib Require Import Permutation.

Definition is_submit (a : action) : bool :=
  match a with
  | SubmitForm => true
  | _ => false
  end.

(** No action of the sequence is a submission. *)
Definition no_submit (acts : list action) : bool :=
  forallb (fun a => negb (is_submit a)) acts.

(** The string does not contain the character. *)
Fixpoint sep_free (sep : ascii) (s : string) : bool :=
  match s with
  | EmptyString => true
  | String c s' => negb (Ascii.eqb c sep) && sep_free sep s'
  end.

(** The object URL of the [k]-th call of [URL.createObjectURL]. *)
Definition object_url (env : Env) (made : nat * File) : string :=
  createObjectURL env (fst made) (snd made).


(** The images of the product the form was mounted on. *)
Definition initial_images (initialProduct : option Product.t)
  : list string :=
  existingImages (form (mount initialProduct)).

(** ** The state-and-exception monad over any store *)

Section StateExc.

Variable S : Type.

Definition SE (A : Type) : Type := S -> result A * S.

Definition se_ret {A : Type} (a : A) : SE A := fun s => (Ok a, s).

Definition se_bind {A B : Type} (m : SE A) (k : A -> SE B) : SE B :=
  fun s =>
    match m s with
    | (Ok a, s1) => k a s1
    | (Throw e, s1) => (Throw e, s1)
    end.

Definition se_throw {A : Type} (e : error) : SE A := fun s => (Throw e, s).

(** [try { body } catch (e) { handler e }]. *)
Definition se_try_catch {A : Type} (body : SE A) (handler : error -> SE A)
  : SE A :=
  fun s =>
    match body s with
    | (Ok a, s1) => (Ok a, s1)
    | (Throw e, s1) => handler e s1
    end.

(** [try { body } catch (e) { handler e } finally { fin }]. *)
Definition se_try_catch_finally {A : Type}
    (body : SE A) (handler : error -> SE A) (fin : SE unit) : SE A :=
  fun s =>
    let (r, s1) := se_try_catch body handler s in
    match fin s1 with
    | (Ok _, s2) => (r, s2)
    | (Throw e, s2) => (Throw e, s2)
    end.

End StateExc.

Arguments se_ret {S A} a.
Arguments se_bind {S A B} m k.
Arguments se_throw {S A} e.
Arguments se_try_catch {S A} body handler.
Arguments se_try_catch_finally {S A} body handler fin.

Declare Scope se_scope.
Delimit Scope se_scope with se.
Notation "x <- m ;; k" := (se_bind m (fun x => k))
  (at level 100, m at next level, right associativity) : se_scope.
Notation "m ;; k" := (se_bind m (fun _ => k))
  (at level 100, right associativity) : se_scope.

(** ** The component [ProductList] *)

Module ProductList.

Local Open Scope se_scope.

(** The React state of the list. *)
Record State : Type := mkState {
  products : list Product.t;
  isLoading : bool
}.

(** Requests sent to [supabase.from('products')]:
    [select('*').order('created_at', { ascending: false })] and
    [delete().eq('id', id)]. *)
Inductive Request : Type :=
| SelectAll
| DeleteById (id : Z).

Record Outside : Type := mkOutside {
  printed : list ConsoleLine;
  requests : list Request
}.

(** The record store as the list sees it: the [{ data, error }] of the
    select, and the [error] of a delete. *)
Record Store : Type := mkStore {
  select_products : option (list Product.t) * option error;
  delete_product : Z -> option error
}.

Record Page : Type := mkPage {
  state : State;
  outside : Outside
}.

(** [useState<Product[]>([])] and [useState(true)]. *)
Definition initialPage : Page :=
  {| state := {| products := []; isLoading := true |};
     outside := {| printed := []; requests := [] |} |}.

Definition setProducts (v : list Product.t) : SE Page unit :=
  fun s => (Ok tt, mkPage (mkState v (isLoading (state s))) (outside s)).

Definition setIsLoading (v : bool) : SE Page unit :=
  fun s => (Ok tt, mkPage (mkState (products (state s)) v) (outside s)).

Definition console_error (label : string) (e : error) : SE Page unit :=
  fun s =>
    (Ok tt,
     mkPage (state s)
       (mkOutside (printed (outside s) ++ [ConsoleError label e])
                  (requests (outside s)))).

Definition request (r : Request) : SE Page unit :=
  fun s =>
    (Ok tt,
     mkPage (state s)
       (mkOutside (printed (outside s)) (requests (outside s) ++ [r]))).

Section Handlers.

Variable store : Store.

Definition fetchProducts : SE Page unit :=
  se_try_catch_finally
    (request SelectAll ;;
     let data := fst (select_products store) in
     let error := snd (select_products store) in
     match error with
     | Some e => se_throw e
     | None =>
         setProducts (match data with
                      | Some rows => rows
                      | None => []
                      end)
     end)
    (fun error => console_error "Error fetching products:" error)
    (setIsLoading false).

(** [p.id !== productId] for a [number | undefined] id. *)
Definition other_id (productId : Z) (p : Product.t) : bool :=
  match Product.id p with
  | Some n => JS.strict_neq n productId
  | None => true
  end.

(** [cap] is the state the closure of the handler captured. *)
Definition handleDelete (cap : State) (productId : Z) : SE Page unit :=
  se_try_catch
    (request (DeleteById productId) ;;
     match delete_product store productId with
     | Some e => se_throw e
     | None => setProducts (filter (other_id productId) (products cap))
     end)
    (fun error => console_error "Error deleting product:" error).

(** The Delete button of a card:
    [onClick={() => product.id && handleDelete(product.id)}]. *)
Definition onClickDelete (cap : State) (product : Product.t)
  : SE Page unit :=
  match Product.id product with
  | Some id =>
      if JS.truthy_number (Some id) then handleDelete cap id
      else se_ret tt
  | None => se_ret tt
  end.

End Handlers.

End ProductList.

(** ** The page [app/edit/[id]/page.tsx] *)

(** [EditProductPage] asks the record store for the product with the id of
    the route ([select('*').eq('id', params.id).single()]), reads only
    [data] of the answer and renders [ProductForm] with
    [initialProduct={data || undefined}]: the value here is that prop. *)
Definition EditProductPage
    (select_single : string -> option Product.t * option error)
    (params_id : string) : option Product.t :=
  match fst (select_single params_id) with
  | Some data => Some data
  | None => None
  end.

(** ** A submission with files dropped while it is in flight *)

(** [handleSubmit] is [async]: while it awaits the answer of the record
    store the browser handles other events.  The buttons of the form are
    disabled by [isLoading] and so is the file input, but [useDropzone] is
    configured without [disabled], so files can still be dropped on the
    zone.  The definitions below are [update_product], [insert_product],
    [write_product] and [handleSubmit] again, with what happens meanwhile
    placed at that [await]. *)

Section InFlight.

Variable env : Env.
Variable initialProduct : option Product.t.

(** [await request]: the request is sent, other events are handled, then
    the answer is used. *)
Definition awaiting {A : Type} (request : M A) (meanwhile : M unit) : M A :=
  answer <- request ;; meanwhile ;; ret answer.

(** Files are dropped on the zone: [onDrop] runs as an event of its own;
    nothing it does can throw into the handler that is waiting. *)
Definition drop_in_flight (acceptedFiles : list File) : M unit :=
  fun s => (Ok tt, snd (onDrop env acceptedFiles s)).

Definition update_product_during (meanwhile : M unit)
    (productData : ProductData.t) (id : Z) : M unit :=
  error <- awaiting (supabase_update env productData id) meanwhile ;;
  match error with
  | Some e => console_log "Error updating product:" e ;; throw e
  | None => ret tt
  end.

Definition insert_product_during (meanwhile : M unit)
    (productData : ProductData.t) : M unit :=
  error <- awaiting (supabase_insert env productData) meanwhile ;;
  match error with
  | Some e => throw e
  | None => ret tt
  end.

Definition write_product_during (meanwhile : M unit)
    (productData : ProductData.t) : M unit :=
  match initialProduct_id initialProduct with
  | Some id =>
      if JS.truthy_number (Some id)
      then update_product_during meanwhile productData id
      else insert_product_during meanwhile productData
  | None => insert_product_during meanwhile productData
  end.

Definition handleSubmit_during (meanwhile : M unit) (cap : FormState)
  : M unit :=
  setIsLoading true ;;
  try_catch_finally
    (deleteOldImages env cap ;;
     newUploadedUrls <- uploadImages env cap ;;
     let finalImages := existingImages cap ++ newUploadedUrls in
     let productData :=
       {| ProductData.name := name cap;
          ProductData.description := description cap;
          ProductData.price := price cap;
          ProductData.images := finalImages |} in
     write_product_during meanwhile productData ;;
     router_push "/")
    (fun error => console_error "Error saving product:" error)
    (forEach (fun image => revokeObjectURL (preview image))
             (newImageFiles cap) ;;
     setIsLoading false ;;
     setNewImageFiles (fun _ => []) ;;
     setImagesToDelete (fun _ => [])).

(** The form is submitted at the render [s] and [acceptedFiles] are
    dropped while the record store is awaited. *)
Definition submit_with_drop (acceptedFiles : list File) (s : Sys)
  : result unit * Sys :=
  handleSubmit_during (drop_in_flight acceptedFiles) (form s) s.

End InFlight.

(** The world with [n] more calls of [URL.createObjectURL]. *)
Definition with_more_blobs (n : nat) (w : World) : World :=
  mkWorld (revoked w) (console w) (storage_log w) (db_log w) (router_log w)
          (uuid_next w) (blob_next w + n).

(** * Lemmas *)

(** ** The JavaScript primitives *)

Lemma split_not_nil (sep : ascii) (s : string) : JS.split sep s <> [].
Proof.
  induction s as [|c s IH]; simpl.
  - discriminate.
  - destruct (Ascii.eqb c sep); [discriminate|].
    destruct (JS.split sep s); discriminate.
Qed.

Lemma pop_some {A : Type} (l : list A) :
  l <> [] -> exists x, JS.pop l = Some x.
Proof.
  induction l as [|a l IH]; [congruence|]. intros _.
  destruct l as [|b l]; simpl.
  - now exists a.
  - apply IH. discriminate.
Qed.

Lemma pop_split_some (sep : ascii) (s : string) :
  exists x, JS.pop (JS.split sep s) = Some x.
Proof. apply pop_some, split_not_nil. Qed.

Lemma index_in_range {A : Type} (l : list A) (i : Z) :
  (0 <= i < Z.of_nat (length l))%Z ->
  exists x, JS.index l i = Some x /\ nth_error l (Z.to_nat i) = Some x.
Proof.
  intros Hi. unfold JS.index.
  destruct (Z.ltb_spec i 0); [lia|].
  destruct (nth_error l (Z.to_nat i)) as [x|] eqn:E.
  - now exists x.
  - apply nth_error_None in E. lia.
Qed.

Lemma index_out_of_range {A : Type} (l : list A) (i : Z) :
  (i < 0 \/ Z.of_nat (length l) <= i)%Z -> JS.index l i = None.
Proof.
  intros Hi. unfold JS.index.
  destruct (Z.ltb_spec i 0); [reflexivity|].
  apply nth_error_None. lia.
Qed.

Lemma index_some_range {A : Type} (l : list A) (i : Z) (x : A) :
  JS.index l i = Some x ->
  (0 <= i < Z.of_nat (length l))%Z /\ nth_error l (Z.to_nat i) = Some x.
Proof.
  unfold JS.index. destruct (Z.ltb_spec i 0); [discriminate|].
  intros E. split; [|exact E].
  assert (nth_error l (Z.to_nat i) <> None) as Hn by congruence.
  apply nth_error_Some in Hn. lia.
Qed.

(** Filtering on [index !== i] keeps every position but [i]. *)
Lemma filter_index_all {A : Type} (l : list A) (i from : Z) :
  (i < from)%Z ->
  JS.filter_index (fun index => JS.strict_neq index i) from l = l.
Proof.
  revert from. induction l as [|x l IH]; intros from Hlt; simpl.
  - reflexivity.
  - unfold JS.strict_neq at 1.
    destruct (Z.eqb_spec from i); [lia|]. simpl.
    now rewrite IH by lia.
Qed.

Lemma filter_index_remove {A : Type} (l : list A) (i from : Z) :
  (from <= i)%Z ->
  JS.filter_index (fun index => JS.strict_neq index i) from l
  = firstn (Z.to_nat (i - from)) l ++ skipn (S (Z.to_nat (i - from))) l.
Proof.
  revert from. induction l as [|x l IH]; intros from Hle; simpl.
  - now rewrite firstn_nil.
  - unfold JS.strict_neq at 1.
    destruct (Z.eqb_spec from i) as [->|Hne]; simpl.
    + rewrite Z.sub_diag. simpl. apply filter_index_all. lia.
    + replace (Z.to_nat (i - from)) with (S (Z.to_nat (i - (from + 1))))
        by lia.
      simpl. f_equal. apply IH. lia.
Qed.

Lemma filter_index_remove0 {A : Type} (l : list A) (i : Z) :
  (0 <= i)%Z ->
  JS.filter_index (fun index => JS.strict_neq index i) 0 l
  = firstn (Z.to_nat i) l ++ skipn (S (Z.to_nat i)) l.
Proof.
  intros Hi. rewrite filter_index_remove by lia. now rewrite Z.sub_0_r.
Qed.

Lemma filter_index_negative {A : Type} (l : list A) (i : Z) :
  (i < 0)%Z -> JS.filter_index (fun index => JS.strict_neq index i) 0 l = l.
Proof. intros Hi. now apply filter_index_all. Qed.

Lemma filter_index_beyond {A : Type} (l : list A) (i : Z) :
  (Z.of_nat (length l) <= i)%Z ->
  JS.filter_index (fun index => JS.strict_neq index i) 0 l = l.
Proof.
  intros Hi. rewrite filter_index_remove0 by lia.
  rewrite firstn_all2 by lia. rewrite skipn_all2 by lia. apply app_nil_r.
Qed.

Lemma remove_at_length {A : Type} (l : list A) (i : nat) :
  i < length l -> length (firstn i l ++ skipn (S i) l) = length l - 1.
Proof.
  intros Hi. rewrite length_app, length_firstn, length_skipn. lia.
Qed.

(** ** The store phases of a submission *)

Section Phases.

Variable env : Env.

Lemma upload_one_run (x : NewImage) (s : Sys) :
  upload_one env x s
  = let w := world s in
    let req := (upload_path env (uuid_next w) (file x), file x) in
    (Ok (upload_answer env req),
     mkSys (form s)
       (mkWorld (revoked w) (console w ++ upload_complaint env req)
                (storage_log w ++ [Upload (fst req) (snd req)])
                (db_log w) (router_log w) (S (uuid_next w)) (blob_next w))).
Proof.
  destruct s as [st w]. unfold upload_one, upload_answer, upload_ok,
    upload_complaint, upload_path, bind, fresh_uuid, supabase_upload,
    storage_request, console_error, console_print, upd_world, ret, bind.
  simpl.
  destruct (storage_upload env _ (file x)); simpl.
  - reflexivity.
  - now rewrite app_nil_r.
Qed.

Lemma upload_all_run (l : list NewImage) (s : Sys) :
  promise_all_map (upload_one env) l s
  = let w := world s in
    let plan := upload_plan env (uuid_next w) l in
    (Ok (map (upload_answer env) plan),
     mkSys (form s)
       (mkWorld (revoked w)
                (console w ++ flat_map (upload_complaint env) plan)
                (storage_log w
                   ++ map (fun req => Upload (fst req) (snd req)) plan)
                (db_log w) (router_log w)
                (uuid_next w + length l) (blob_next w))).
Proof.
  revert s. induction l as [|x l IH]; intros [st w].
  - simpl. unfold ret. rewrite !app_nil_r, Nat.add_0_r.
    now destruct w.
  - cbn [promise_all_map]. rewrite upload_one_run.
    cbv beta iota zeta. rewrite IH. cbv beta iota zeta.
    cbn [world form revoked console storage_log db_log
           router_log uuid_next blob_next upload_plan map flat_map length
           fst snd].
    rewrite <- !app_assoc. cbn [app].
    now rewrite Nat.add_succ_r.
Qed.

Lemma non_null_answers (plan : list (string * File)) :
  non_null (map (upload_answer env) plan)
  = map (fun req => getPublicUrl env (fst req)) (filter (upload_ok env) plan).
Proof.
  induction plan as [|req plan IH]; simpl; [reflexivity|].
  unfold upload_answer at 1.
  destruct (upload_ok env req); simpl; now rewrite IH.
Qed.

Lemma uploadImages_run (cap : FormState) (s : Sys) :
  uploadImages env cap s
  = let w := world s in
    let plan := upload_plan env (uuid_next w) (newImageFiles cap) in
    (Ok (uploaded_urls env (uuid_next w) (newImageFiles cap)),
     mkSys (form s)
       (mkWorld (revoked w)
                (console w ++ flat_map (upload_complaint env) plan)
                (storage_log w
                   ++ map (fun req => Upload (fst req) (snd req)) plan)
                (db_log w) (router_log w)
                (uuid_next w + length (newImageFiles cap)) (blob_next w))).
Proof.
  unfold uploadImages, bind. rewrite upload_all_run. cbv zeta.
  unfold ret, uploaded_urls. now rewrite non_null_answers.
Qed.

Lemma upload_plan_length (n : nat) (l : list NewImage) :
  length (upload_plan env n l) = length l.
Proof.
  revert n. induction l as [|x l IH]; intros n; simpl; [|rewrite IH];
    reflexivity.
Qed.

Lemma upload_plan_files (n : nat) (l : list NewImage) :
  map snd (upload_plan env n l) = map file l.
Proof.
  revert n. induction l as [|x l IH]; intros n; simpl; [|rewrite IH];
    reflexivity.
Qed.

Lemma delete_one_run (slot : option string) (s : Sys) :
  delete_one env slot s
  = let w := world s in
    (match slot with
     | Some _ => Ok tt
     | None => Throw split_type_error
     end,
     mkSys (form s)
       (mkWorld (revoked w)
                (console w
                   ++ flat_map (delete_complaint env) (delete_path slot))
                (storage_log w
                   ++ map (fun p => Remove [p]) (delete_path slot))
                (db_log w) (router_log w) (uuid_next w) (blob_next w))).
Proof.
  destruct s as [st w]. destruct slot as [url|]; simpl.
  - destruct (JS.truthy_string (JS.pop (JS.split "/" url))); simpl.
    + unfold bind, supabase_remove, storage_request, upd_world, ret,
        delete_complaint, console_error, console_print, upd_world. simpl.
      destruct (storage_remove env _); simpl; rewrite ?app_nil_r;
        reflexivity.
    + unfold ret. rewrite !app_nil_r. now destruct w.
  - unfold throw. rewrite !app_nil_r. now destruct w.
Qed.

Lemma delete_all_run (l : list (option string)) (s : Sys) :
  exists r,
    promise_all_map (delete_one env) l s
    = (let w := world s in
       (r,
        mkSys (form s)
          (mkWorld (revoked w)
                   (console w
                      ++ flat_map (delete_complaint env) (delete_plan l))
                   (storage_log w
                      ++ map (fun p => Remove [p]) (delete_plan l))
                   (db_log w) (router_log w) (uuid_next w) (blob_next w))))
    /\ (if all_strings l then exists vs, r = Ok vs
        else r = Throw split_type_error).
Proof.
  revert s. induction l as [|slot l IH]; intros [st w].
  - exists (Ok []). simpl. unfold ret. rewrite !app_nil_r.
    split; [now destruct w | now exists []].
  - cbn [promise_all_map]. rewrite delete_one_run. cbv beta iota zeta.
    match goal with |- context [promise_all_map _ l ?s1] =>
      destruct (IH s1) as (r & E & Hr) end.
    rewrite E. cbv beta iota zeta.
    cbn [world form revoked console storage_log db_log router_log uuid_next
           blob_next].
    unfold delete_plan. cbn [flat_map]. fold (delete_plan l).
    rewrite flat_map_app, map_app, <- !app_assoc.
    eexists. split; [reflexivity|].
    destruct slot as [url|]; cbn [all_strings forallb andb].
    + fold (all_strings l). destruct (all_strings l).
      * destruct Hr as [vs ->]. now eexists.
      * now rewrite Hr.
    + reflexivity.
Qed.

Lemma deleteOldImages_run (cap : FormState) (s : Sys) :
  deleteOldImages env cap s
  = let w := world s in
    let plan := delete_plan (imagesToDelete cap) in
    (if all_strings (imagesToDelete cap) then Ok tt
     else Throw split_type_error,
     mkSys (form s)
       (mkWorld (revoked w)
                (console w ++ flat_map (delete_complaint env) plan)
                (storage_log w ++ map (fun p => Remove [p]) plan)
                (db_log w) (router_log w) (uuid_next w) (blob_next w))).
Proof.
  unfold deleteOldImages, bind.
  destruct (delete_all_run (imagesToDelete cap) s) as (r & E & Hr).
  rewrite E. cbv zeta.
  destruct (all_strings (imagesToDelete cap)).
  - destruct Hr as [vs ->]. reflexivity.
  - now rewrite Hr.
Qed.

(** Which paths the delete phase asks the object store to remove. *)
Lemma in_delete_plan (l : list (option string)) (path : string) :
  In path (delete_plan l)
  <-> exists url fileName,
        In (Some url) l /\ JS.pop (JS.split "/" url) = Some fileName
        /\ fileName <> EmptyString /\ path = ("products/" ++ fileName)%string.
Proof.
  unfold delete_plan. rewrite in_flat_map. split.
  - intros ([url|] & Hin & Hp); simpl in Hp; [|contradiction].
    destruct (pop_split_some "/" url) as [fileName E]. rewrite E in Hp.
    destruct fileName as [|c rest]; simpl in Hp; [contradiction|].
    destruct Hp as [<-|[]]. exists url, (String c rest).
    repeat split; auto. discriminate.
  - intros (url & fileName & Hin & E & Hne & ->).
    exists (Some url). split; [exact Hin|]. simpl. rewrite E.
    destruct fileName as [|c rest]; [congruence|]. simpl. now left.
Qed.

Lemma revoke_all_run (l : list NewImage) (s : Sys) :
  forEach (fun image => revokeObjectURL (preview image)) l s
  = let w := world s in
    (Ok tt,
     mkSys (form s)
       (mkWorld (revoked w ++ map preview l) (console w) (storage_log w)
                (db_log w) (router_log w) (uuid_next w) (blob_next w))).
Proof.
  revert s. induction l as [|x l IH]; intros [st w].
  - simpl. unfold ret. rewrite app_nil_r. now destruct w.
  - cbn [forEach]. unfold bind at 1. unfold revokeObjectURL at 1, upd_world.
    rewrite IH. simpl. now rewrite <- app_assoc.
Qed.

End Phases.

(** ** A whole submission *)

Section Submission.

Variable env : Env.
Variable initialProduct : option Product.t.

Lemma write_product_run (data : ProductData.t) (s : Sys) :
  write_product env initialProduct data s
  = let w := world s in
    (match write_answer env initialProduct data with
     | None => Ok tt
     | Some e => Throw e
     end,
     mkSys (form s)
       (mkWorld (revoked w)
                (console w ++ write_complaint env initialProduct data)
                (storage_log w) (db_log w ++ [write_call initialProduct data])
                (router_log w) (uuid_next w) (blob_next w))).
Proof.
  destruct s as [st w].
  unfold write_product, write_complaint, write_answer, write_call.
  destruct (initialProduct_id initialProduct) as [id|];
    [destruct (JS.truthy_number (Some id))|];
    unfold update_product, insert_product, bind, supabase_update,
      supabase_insert, db_request, upd_world, ret, console_log,
      console_print, upd_world, throw; simpl.
  - destruct (db_update env data id); simpl; rewrite ?app_nil_r; reflexivity.
  - destruct (db_insert env data); simpl; rewrite ?app_nil_r; reflexivity.
  - destruct (db_insert env data); simpl; rewrite ?app_nil_r; reflexivity.
Qed.

(** [handleSubmit] always completes normally, and this is all it does. *)
Lemma submit_run (s : Sys) :
  submit env initialProduct s
  = (Ok tt,
     mkSys (form_after_submit (form s))
           (world_after_submit env initialProduct s)).
Proof.
  destruct s as [st w].
  unfold submit, fire, handler, handleSubmit.
  unfold bind at 1. unfold setIsLoading at 1, upd_form at 1.
  cbn [form world]. unfold try_catch_finally.
  unfold bind at 1. rewrite deleteOldImages_run. cbv beta iota zeta.
  cbn [form world]. unfold world_after_submit. cbn [form world].
  destruct (all_strings (imagesToDelete st)).
  - unfold bind at 1. rewrite uploadImages_run. cbv beta iota zeta.
    unfold bind at 1. rewrite write_product_run. cbv beta iota zeta.
    cbn [form world revoked console storage_log db_log router_log uuid_next
           blob_next].
    unfold product_data, final_images. cbn [form world].
    destruct (write_answer _ _ _) as [e|]; cbv beta iota zeta.
    + unfold console_error, console_print, upd_world. cbn [form world
        revoked console storage_log db_log router_log uuid_next blob_next].
      unfold bind at 1. rewrite revoke_all_run. cbv beta iota zeta.
      unfold bind, setIsLoading, setNewImageFiles, setImagesToDelete,
        upd_form. simpl. unfold form_after_submit. simpl.
      rewrite <- !app_assoc, !app_nil_r. reflexivity.
    + unfold router_push, upd_world. cbn [form world
        revoked console storage_log db_log router_log uuid_next blob_next].
      unfold bind at 1. rewrite revoke_all_run. cbv beta iota zeta.
      unfold bind, setIsLoading, setNewImageFiles, setImagesToDelete,
        upd_form. simpl. unfold form_after_submit. simpl.
      rewrite <- !app_assoc, !app_nil_r. reflexivity.
  - unfold console_error, console_print, upd_world. cbn [form world
      revoked console storage_log db_log router_log uuid_next blob_next].
    unfold bind at 1. rewrite revoke_all_run. cbv beta iota zeta.
    unfold bind, setIsLoading, setNewImageFiles, setImagesToDelete,
      upd_form. simpl. unfold form_after_submit. simpl.
    rewrite <- !app_assoc. reflexivity.
Qed.

(** With every slot of [imagesToDelete] a string the submission reaches
    the record-store write. *)
Lemma submit_world_typed (s : Sys) :
  all_strings (imagesToDelete (form s)) = true ->
  world (snd (submit env initialProduct s))
  = let st := form s in
    let w := world s in
    let removes := delete_plan (imagesToDelete st) in
    let uploads := upload_plan env (uuid_next w) (newImageFiles st) in
    let data := product_data env s in
    mkWorld (revoked w ++ map preview (newImageFiles st))
            (console w ++ flat_map (delete_complaint env) removes
               ++ flat_map (upload_complaint env) uploads
               ++ write_complaint env initialProduct data
               ++ saving_complaint (write_answer env initialProduct data))
            (storage_log w ++ map (fun p => Remove [p]) removes
               ++ map (fun req => Upload (fst req) (snd req)) uploads)
            (db_log w ++ [write_call initialProduct data])
            (router_log w ++ navigation (write_answer env initialProduct data))
            (uuid_next w + length (newImageFiles st))
            (blob_next w).
Proof.
  intros Hall. rewrite submit_run. cbn [snd world].
  unfold world_after_submit. now rewrite Hall.
Qed.

(** Which request the write sends. *)
Lemma write_call_update (p : Product.t) (id : Z) (data : ProductData.t) :
  initialProduct = Some p -> Product.id p = Some id -> id <> 0%Z ->
  write_call initialProduct data = Update data id.
Proof.
  intros -> Hid Hne. unfold write_call, initialProduct_id. rewrite Hid.
  simpl. destruct (Z.eqb_spec id 0); [contradiction|reflexivity].
Qed.

Lemma write_call_insert (data : ProductData.t) :
  initialProduct_id initialProduct = None ->
  write_call initialProduct data = Insert data.
Proof. intros H. unfold write_call. now rewrite H. Qed.

Lemma write_call_zero (p : Product.t) (data : ProductData.t) :
  initialProduct = Some p -> Product.id p = Some 0%Z ->
  write_call initialProduct data = Insert data.
Proof.
  intros -> Hid. unfold write_call, initialProduct_id. now rewrite Hid.
Qed.

Lemma call_data_write (data : ProductData.t) :
  call_data (write_call initialProduct data) = data.
Proof.
  unfold write_call. destruct (initialProduct_id initialProduct) as [id|];
    [destruct (JS.truthy_number (Some id))|]; reflexivity.
Qed.

End Submission.

(** ** The list-editing handlers *)

Section Editing.

Variable env : Env.

Lemma previews_run (fs : list File) (s : Sys) :
  array_map (fun f =>
               url <- fresh_object_url env f ;;
               ret {| file := f; preview := url |}) fs s
  = let w := world s in
    (Ok (drop_plan env (blob_next w) fs),
     mkSys (form s)
       (mkWorld (revoked w) (console w) (storage_log w) (db_log w)
                (router_log w) (uuid_next w) (blob_next w + length fs))).
Proof.
  revert s. induction fs as [|f fs IH]; intros [st w].
  - simpl. unfold ret. rewrite Nat.add_0_r. now destruct w.
  - cbn [array_map]. unfold bind at 1. unfold bind at 1.
    unfold fresh_object_url at 1. cbv beta iota zeta. unfold ret at 1.
    cbv beta iota zeta. unfold bind at 1. rewrite IH. cbv beta iota zeta.
    unfold ret. simpl. now rewrite Nat.add_succ_r.
Qed.

Lemma onDrop_run (fs : list File) (s : Sys) :
  onDrop env fs s
  = let st := form s in
    let w := world s in
    (Ok tt,
     mkSys
       (mkFormState (name st) (description st) (price st)
                    (newImageFiles st ++ drop_plan env (blob_next w) fs)
                    (existingImages st) (imagesToDelete st) (isLoading st)
                    (selectedImageUrl st))
       (mkWorld (revoked w) (console w) (storage_log w) (db_log w)
                (router_log w) (uuid_next w) (blob_next w + length fs))).
Proof.
  unfold onDrop, bind. rewrite previews_run. reflexivity.
Qed.

Lemma removeExistingImage_run (i : Z) (s : Sys) :
  removeExistingImage (form s) i s
  = let st := form s in
    (Ok tt,
     mkSys
       (mkFormState (name st) (description st) (price st)
                    (newImageFiles st)
                    (JS.filter_index (fun index => JS.strict_neq index i) 0
                                     (existingImages st))
                    (imagesToDelete st ++ [JS.index (existingImages st) i])
                    (isLoading st) (selectedImageUrl st))
       (world s)).
Proof. reflexivity. Qed.

Lemma removeNewImage_run (i : Z) (s : Sys) :
  removeNewImage (form s) i s
  = let st := form s in
    let w := world s in
    match JS.index (newImageFiles st) i with
    | None => (Throw preview_type_error, s)
    | Some entry =>
        (Ok tt,
         mkSys
           (mkFormState (name st) (description st) (price st)
                        (JS.filter_index
                           (fun index => JS.strict_neq index i) 0
                           (newImageFiles st))
                        (existingImages st) (imagesToDelete st)
                        (isLoading st) (selectedImageUrl st))
           (mkWorld (revoked w ++ [preview entry]) (console w)
                    (storage_log w) (db_log w) (router_log w)
                    (uuid_next w) (blob_next w)))
    end.
Proof.
  unfold removeNewImage. cbv zeta.
  destruct (JS.index (newImageFiles (form s)) i); reflexivity.
Qed.

End Editing.

(** ** Counting *)

Lemma non_null_app {A : Type} (l1 l2 : list (option A)) :
  non_null (l1 ++ l2) = non_null l1 ++ non_null l2.
Proof.
  induction l1 as [|[a|] l1 IH]; simpl; [reflexivity| |]; now rewrite IH.
Qed.

Lemma in_non_null {A : Type} (a : A) (l : list (option A)) :
  In a (non_null l) <-> In (Some a) l.
Proof.
  induction l as [|[b|] l IH]; simpl.
  - tauto.
  - rewrite IH. split; intros [H|H]; auto; left; congruence.
  - rewrite IH. split; [auto|]. intros [H|H]; [discriminate|auto].
Qed.

Lemma times_pos (u : string) (l : list string) : In u l <-> times u l > 0.
Proof. apply count_occ_In. Qed.

Lemma times_zero (u : string) (l : list string) : ~ In u l <-> times u l = 0.
Proof. apply count_occ_not_In. Qed.

Lemma times_NoDup (l : list string) :
  NoDup l <-> forall u, times u l <= 1.
Proof. apply NoDup_count_occ. Qed.

(** Removing position [i] takes one occurrence of the removed URL away and
    none of any other. *)
Lemma times_remove_at (u v : string) (l : list string) (i : nat) :
  nth_error l i = Some v ->
  times u (firstn i l ++ skipn (S i) l) + (if string_dec v u then 1 else 0)
  = times u l.
Proof.
  unfold times. revert i. induction l as [|x l IH]; intros [|i] E;
    try discriminate.
  - injection E as ->. cbn [firstn skipn app count_occ].
    destruct (string_dec v u); lia.
  - cbn [nth_error] in E. specialize (IH i E).
    cbn [firstn skipn app count_occ] in *.
    destruct (string_dec x u); lia.
Qed.

Lemma times_marked_snoc (u : string) (d : list (option string))
    (slot : option string) :
  times_marked u (d ++ [slot])
  = times_marked u d
    + match slot with
      | Some v => if string_dec v u then 1 else 0
      | None => 0
      end.
Proof.
  unfold times_marked, times. rewrite non_null_app, count_occ_app.
  destruct slot as [v|]; simpl; [|reflexivity].
  destruct (string_dec v u); reflexivity.
Qed.

(** [removeExistingImage] moves occurrences, it neither creates nor loses
    any: for every URL the two counts add up to what they were. *)
Lemma remove_existing_conserves (u : string) (l : list string)
    (d : list (option string)) (i : Z) :
  times u (JS.filter_index (fun index => JS.strict_neq index i) 0 l)
    + times_marked u (d ++ [JS.index l i])
  = times u l + times_marked u d.
Proof.
  rewrite times_marked_snoc.
  destruct (JS.index l i) as [v|] eqn:E.
  - apply index_some_range in E as [Hi Hn].
    rewrite filter_index_remove0 by lia.
    pose proof (times_remove_at u v l (Z.to_nat i) Hn). lia.
  - unfold JS.index in E. destruct (Z.ltb_spec i 0).
    + rewrite filter_index_negative by lia. lia.
    + apply nth_error_None in E. rewrite filter_index_beyond by lia. lia.
Qed.

(** ** The invariant of an edit session *)

Lemma separated_disjoint (st : FormState) (u : string) :
  separated st -> In u (existingImages st) ->
  ~ In (Some u) (imagesToDelete st).
Proof.
  intros Hsep Hin Hdel. specialize (Hsep u).
  apply times_pos in Hin. apply in_non_null, times_pos in Hdel.
  unfold times_marked in Hsep. lia.
Qed.

Section Session.

Variable env : Env.
Variable initialProduct : option Product.t.

Lemma separated_mount :
  NoDup (existingImages (form (mount initialProduct))) ->
  separated (form (mount initialProduct)).
Proof.
  intros Hnd u. pose proof (proj1 (times_NoDup _) Hnd u) as Hu.
  unfold mount in *. cbn [form initialState imagesToDelete] in *.
  change (times_marked u []) with 0. lia.
Qed.

Lemma separated_dispatch (s : Sys) (a : action) :
  separated (form s) -> separated (form (dispatch env initialProduct s a)).
Proof.
  intros Hsep. unfold dispatch, fire.
  destruct a; cbn [handler]; try exact Hsep.
  - rewrite onDrop_run. exact Hsep.
  - rewrite removeNewImage_run. cbv zeta.
    destruct (JS.index (newImageFiles (form s)) index); exact Hsep.
  - rewrite removeExistingImage_run. intros u. cbv zeta.
    cbn [snd form existingImages imagesToDelete].
    rewrite remove_existing_conserves. apply Hsep.
  - change (handleSubmit env initialProduct (form s) s)
      with (submit env initialProduct s). rewrite submit_run.
    intros u. specialize (Hsep u). unfold form_after_submit.
    cbn [snd form existingImages imagesToDelete].
    change (times_marked u []) with 0. lia.
Qed.

Lemma separated_run (acts : list action) (s : Sys) :
  separated (form s) -> separated (form (run env initialProduct acts s)).
Proof.
  revert s. induction acts as [|a acts IH]; intros s Hsep; simpl.
  - exact Hsep.
  - apply IH, separated_dispatch, Hsep.
Qed.

(** Every slot of [imagesToDelete] holds a string as long as
    [removeExistingImage] is only called on positions that exist. *)
Lemma all_strings_dispatch (s : Sys) (a : action) :
  in_range_action s a ->
  all_strings (imagesToDelete (form s)) = true ->
  all_strings (imagesToDelete (form (dispatch env initialProduct s a)))
  = true.
Proof.
  intros Hr Hall. unfold dispatch, fire.
  destruct a; cbn [handler]; try exact Hall.
  - rewrite onDrop_run. exact Hall.
  - rewrite removeNewImage_run. cbv zeta.
    destruct (JS.index (newImageFiles (form s)) index); exact Hall.
  - rewrite removeExistingImage_run. cbv zeta.
    cbn [snd form existingImages imagesToDelete].
    destruct (index_in_range _ _ Hr) as (x & -> & _).
    unfold all_strings in *. rewrite forallb_app, Hall. reflexivity.
  - change (handleSubmit env initialProduct (form s) s)
      with (submit env initialProduct s). rewrite submit_run. reflexivity.
Qed.

Lemma all_strings_run (acts : list action) (s : Sys) :
  in_range_run env initialProduct acts s ->
  all_strings (imagesToDelete (form s)) = true ->
  all_strings (imagesToDelete (form (run env initialProduct acts s))) = true.
Proof.
  revert s. induction acts as [|a acts IH]; intros s Hr Hall; simpl.
  - exact Hall.
  - destruct Hr as [Ha Hrest]. apply IH; [exact Hrest|].
    now apply all_strings_dispatch.
Qed.

(** X8: in a session that respects the precondition of
    [removeExistingImage] -- every index exists when it is used -- every
    slot of [imagesToDelete] holds a string at every point, so every
    submission finds only strings to delete. *)
Lemma all_strings_session (acts : list action) :
  in_range_run env initialProduct acts (mount initialProduct) ->
  all_strings
    (imagesToDelete
       (form (run env initialProduct acts (mount initialProduct)))) = true.
Proof. intros Hr. now apply all_strings_run. Qed.

End Session.

(** * The properties of the form *)

(** ** Record-store failure *)

(** C1, as stated, fails: when the record store refuses the insert,
    [handleSubmit] does not hand the error to its caller.  The [catch]
    block prints it and the handler completes normally. *)
Lemma C1_write_error_is_not_propagated :
  let env := sample_env [] false true in
  let s := mount None in
  write_answer env None (product_data env s)
    = Some (StoreError "insert refused")
  /\ fst (submit env None s) = Ok tt
  /\ fst (submit env None s) <> Throw (StoreError "insert refused").
Proof.
  cbv zeta. split; [|split].
  - vm_compute. reflexivity.
  - vm_compute. reflexivity.
  - vm_compute. discriminate.
Qed.

(** C1, amended: when the record-store write (update or insert) fails with
    [e], the submission stops there -- the write was sent, nothing is pushed
    to the router -- and the error is printed: for an update first as
    'Error updating product:', and in both cases as 'Error saving
    product:', which is the last line; before these lines the console only
    gained the complaints of the delete and upload phases.  [handleSubmit]
    itself completes normally: the error reaches the console, not the
    caller. *)
Theorem C1_write_failure_aborts_and_is_logged
    (env : Env) (initialProduct : option Product.t) (s : Sys) (e : error) :
  all_strings (imagesToDelete (form s)) = true ->
  write_answer env initialProduct (product_data env s) = Some e ->
  fst (submit env initialProduct s) = Ok tt
  /\ db_log (world (snd (submit env initialProduct s)))
     = db_log (world s) ++ [write_call initialProduct (product_data env s)]
  /\ router_log (world (snd (submit env initialProduct s)))
     = router_log (world s)
  /\ exists earlier,
       console (world (snd (submit env initialProduct s)))
       = console (world s) ++ earlier
           ++ match write_call initialProduct (product_data env s) with
              | Update _ _ => [ConsoleLog "Error updating product:" e]
              | Insert _ => []
              end
           ++ [ConsoleError "Error saving product:" e]
       /\ Permutation earlier
            (flat_map (delete_complaint env)
               (delete_plan (imagesToDelete (form s)))
             ++ flat_map (upload_complaint env)
                  (upload_plan env (uuid_next (world s))
                     (newImageFiles (form s)))).
Proof.
  intros Hall He. rewrite (submit_world_typed env initialProduct s Hall).
  rewrite submit_run. cbv zeta. cbn [fst world db_log router_log console].
  rewrite He. cbn [navigation saving_complaint].
  split; [reflexivity|]. split; [reflexivity|].
  split; [apply app_nil_r|].
  exists (flat_map (delete_complaint env)
            (delete_plan (imagesToDelete (form s)))
          ++ flat_map (upload_complaint env)
               (upload_plan env (uuid_next (world s))
                  (newImageFiles (form s)))).
  split; [|reflexivity].
  rewrite <- !app_assoc. do 3 f_equal.
  unfold write_complaint. rewrite He.
  destruct (write_call initialProduct (product_data env s)); reflexivity.
Qed.

(** The record store refuses the update of product 7: the console shows
    'Error updating product:' and then 'Error saving product:', nothing is
    pushed to the router and the handler still completes normally. *)
Lemma C1_refused_update_is_logged :
  let env := sample_env [] false true in
  let p := sample_product (Some 7%Z) [url_A] in
  console (world (snd (submit env (Some p) (mount (Some p)))))
  = [ConsoleLog "Error updating product:" (StoreError "update refused");
     ConsoleError "Error saving product:" (StoreError "update refused")]
  /\ router_log (world (snd (submit env (Some p) (mount (Some p))))) = []
  /\ fst (submit env (Some p) (mount (Some p))) = Ok tt.
Proof.
  cbv zeta.
  destruct (C1_write_failure_aborts_and_is_logged
              (sample_env [] false true)
              (Some (sample_product (Some 7%Z) [url_A]))
              (mount (Some (sample_product (Some 7%Z) [url_A])))
              (StoreError "update refused"))
    as (Hok & _ & Hnav & earlier & Hcon & Hperm).
  - vm_compute. reflexivity.
  - vm_compute. reflexivity.
  - split; [|split; [exact Hnav | exact Hok]].
    apply Permutation_sym, Permutation_nil in Hperm. subst earlier.
    exact Hcon.
Defined.

(** ** Cleanup *)

(** A submission during which no other event is handled -- whatever
    happens in it: the write succeeds, the write fails, or the delete phase
    throws -- ends with every preview of [newImageFiles] passed to
    [URL.revokeObjectURL], in order, and with [newImageFiles] and
    [imagesToDelete] both empty. *)
Lemma submit_alone_cleans_up
    (env : Env) (initialProduct : option Product.t) (s : Sys) :
  revoked (world (snd (submit env initialProduct s)))
  = revoked (world s) ++ map preview (newImageFiles (form s))
  /\ newImageFiles (form (snd (submit env initialProduct s))) = []
  /\ imagesToDelete (form (snd (submit env initialProduct s))) = [].
Proof.
  rewrite submit_run. cbn [snd form world]. unfold world_after_submit.
  cbv zeta. destruct (all_strings (imagesToDelete (form s))); auto.
Qed.

(** ** The image list that is written *)

(** C3: the requests a submission sends to the record store -- one, or none
    when the delete phase threw on an [undefined] slot -- carry as [images]
    the list [existingImages] followed by the public URLs of the pending
    entries whose upload succeeded, each group in its own order. *)
Theorem C3_final_images_written
    (env : Env) (initialProduct : option Product.t) (s : Sys) :
  exists calls,
    db_log (world (snd (submit env initialProduct s)))
    = db_log (world s) ++ calls
    /\ length calls
       = (if all_strings (imagesToDelete (form s)) then 1 else 0)
    /\ Forall
         (fun c =>
            ProductData.images (call_data c)
            = existingImages (form s)
                ++ map (fun req => getPublicUrl env (fst req))
                     (filter (upload_ok env)
                        (upload_plan env (uuid_next (world s))
                           (newImageFiles (form s)))))
         calls.
Proof.
  rewrite submit_run. cbn [snd world]. unfold world_after_submit. cbv zeta.
  destruct (all_strings (imagesToDelete (form s))); cbn [db_log].
  - eexists. split; [reflexivity|]. split; [reflexivity|].
    constructor; [|constructor]. now rewrite call_data_write.
  - exists []. split; [now rewrite app_nil_r|]. split; [reflexivity|].
    constructor.
Qed.

(** ** Frame *)

(** C9: a submission leaves [existingImages] as it found it, on every exit
    path. *)
Theorem C9_submit_keeps_existingImages
    (env : Env) (initialProduct : option Product.t) (s : Sys) :
  existingImages (form (snd (submit env initialProduct s)))
  = existingImages (form s).
Proof. rewrite submit_run. reflexivity. Qed.

(** ** Upload failures *)

(** C4: every pending entry gets exactly one upload request, in order,
    whatever the store answers to the others; every refused upload is
    printed once as 'Upload error:' and nothing else is printed by the
    upload phase; the URL list of [uploadImages] holds the public URLs of
    exactly the entries whose upload succeeded; the record is written with
    [existingImages] followed by those URLs, and when that write succeeds
    the submission navigates to the list as a success.  With two pending
    entries of which one fails, only the URL of the other one is added. *)
Theorem C4_failed_upload_is_dropped
    (env : Env) (initialProduct : option Product.t) (s : Sys) :
  all_strings (imagesToDelete (form s)) = true ->
  let plan :=
    upload_plan env (uuid_next (world s)) (newImageFiles (form s)) in
  let urls :=
    map (fun req => getPublicUrl env (fst req))
        (filter (upload_ok env) plan) in
  let refusals :=
    flat_map (fun req =>
                match storage_upload env (fst req) (snd req) with
                | Some e => [ConsoleError "Upload error:" e]
                | None => []
                end) plan in
  let data :=
    {| ProductData.name := name (form s);
       ProductData.description := description (form s);
       ProductData.price := price (form s);
       ProductData.images := existingImages (form s) ++ urls |} in
  let after := world (snd (submit env initialProduct s)) in
  fst (uploadImages env (form s) s) = Ok urls
  /\ map snd plan = map file (newImageFiles (form s))
  /\ storage_log after
     = storage_log (world s)
         ++ map (fun p => Remove [p]) (delete_plan (imagesToDelete (form s)))
         ++ map (fun req => Upload (fst req) (snd req)) plan
  /\ db_log after = db_log (world s) ++ [write_call initialProduct data]
  /\ (write_answer env initialProduct data = None ->
      router_log after = router_log (world s) ++ ["/"])
  /\ (forall a b,
        plan = [a; b] -> upload_ok env a = negb (upload_ok env b) ->
        urls = [getPublicUrl env (fst (if upload_ok env a then a else b))])
  /\ (exists printed,
        console (world (snd (uploadImages env (form s) s)))
        = console (world s) ++ printed
        /\ Permutation printed refusals)
  /\ (exists deletions uploads,
        console after
        = console (world s) ++ deletions ++ uploads
            ++ write_complaint env initialProduct data
            ++ saving_complaint (write_answer env initialProduct data)
        /\ Permutation deletions
             (flat_map (delete_complaint env)
                (delete_plan (imagesToDelete (form s))))
        /\ Permutation uploads refusals).
Proof.
  intros Hall plan urls refusals data after. subst after.
  rewrite (submit_world_typed env initialProduct s Hall).
  rewrite uploadImages_run. cbv zeta.
  cbn [fst snd world storage_log db_log router_log console].
  split; [reflexivity|]. split; [apply upload_plan_files|].
  split; [reflexivity|]. split; [reflexivity|]. split; [|split; [|split]].
  - intros Hw. fold data in Hw.
    change (product_data env s) with data. now rewrite Hw.
  - intros a b Hplan Hab. subst urls. rewrite Hplan. cbn [filter].
    rewrite Hab. destruct (upload_ok env b); reflexivity.
  - exists refusals. split; reflexivity.
  - exists (flat_map (delete_complaint env)
              (delete_plan (imagesToDelete (form s)))), refusals.
    split; [reflexivity|]. split; reflexivity.
Qed.

(** Two files are dropped on a new product and the store refuses the
    first: the refusal is printed, the record is inserted with the second
    file's URL only, and the form navigates away. *)
Lemma C4_one_of_two_uploads_fails :
  let env := sample_env ["front.png"] false false in
  let s := run env None [DropFiles [file_1; file_2]] (mount None) in
  db_log (world (snd (submit env None s)))
    = [Insert {| ProductData.name := EmptyString;
                 ProductData.description := EmptyString;
                 ProductData.price := 0;
                 ProductData.images :=
                   ["https://cdn.test/products/uuid1.jpeg"] |}]
  /\ router_log (world (snd (submit env None s))) = ["/"]
  /\ uploaded_urls env 0 (newImageFiles (form s))
     = ["https://cdn.test/products/uuid1.jpeg"]
  /\ console (world (snd (submit env None s)))
     = [ConsoleError "Upload error:" (StoreError "upload refused")].
Proof.
  cbv zeta.
  destruct (C4_failed_upload_is_dropped
              (sample_env ["front.png"] false false) None
              (run (sample_env ["front.png"] false false) None
                   [DropFiles [file_1; file_2]] (mount None)))
    as (_ & _ & _ & Hdb & Hnav & Htwo & _
        & deletions & uploads & Hcon & Hdel & Hup).
  - vm_compute. reflexivity.
  - split; [exact Hdb|]. split; [|split].
    + apply Hnav. vm_compute. reflexivity.
    + exact (Htwo ("products/uuid0.png", file_1)
                  ("products/uuid1.jpeg", file_2) eq_refl eq_refl).
    + apply Permutation_sym, Permutation_nil in Hdel. subst deletions.
      apply Permutation_sym, Permutation_length_1_inv in Hup.
      subst uploads. exact Hcon.
Defined.

(** ** Existing images and images marked for deletion *)

(** C5, as stated, fails when the product lists the same URL twice:
    removing position 0 of [[A; A]] marks [A] for deletion while the other
    copy of [A] stays in [existingImages]. *)
Lemma C5_duplicate_url_in_both_lists :
  let env := sample_env [] false false in
  let p := sample_product (Some 7%Z) [url_A; url_A] in
  let s := dispatch env (Some p) (mount (Some p)) (ClickRemoveExisting 0) in
  JS.index (existingImages (form (mount (Some p)))) 0 = Some url_A
  /\ In url_A (existingImages (form s))
  /\ In (Some url_A) (imagesToDelete (form s)).
Proof.
  cbv zeta. split; [|split].
  - reflexivity.
  - vm_compute. left. reflexivity.
  - vm_compute. left. reflexivity.
Qed.

(** C5, amended: for a form mounted on a product whose image list has no
    duplicate URL, after any sequence of user actions no URL is in both
    [existingImages] and [imagesToDelete]; and a call
    [removeExistingImage(i)] with [0 <= i < existingImages.length] then
    leaves the URL [existingImages[i]] exactly once in [imagesToDelete] and
    no longer in [existingImages]. *)
Theorem C5_removed_url_marked_once_and_lists_disjoint
    (env : Env) (initialProduct : option Product.t) (acts : list action) :
  NoDup (existingImages (form (mount initialProduct))) ->
  let s := run env initialProduct acts (mount initialProduct) in
  (forall u, In u (existingImages (form s)) ->
             ~ In (Some u) (imagesToDelete (form s)))
  /\ (forall i,
        (0 <= i < Z.of_nat (length (existingImages (form s))))%Z ->
        exists u,
          nth_error (existingImages (form s)) (Z.to_nat i) = Some u
          /\ let s' :=
               dispatch env initialProduct s (ClickRemoveExisting i) in
             times_marked u (imagesToDelete (form s')) = 1
             /\ ~ In u (existingImages (form s'))
             /\ existingImages (form s')
                = firstn (Z.to_nat i) (existingImages (form s))
                    ++ skipn (S (Z.to_nat i)) (existingImages (form s))).
Proof.
  intros Hnd s.
  assert (separated (form s)) as Hsep
    by (apply separated_run, separated_mount, Hnd).
  split.
  - intros u. now apply separated_disjoint.
  - intros i Hi. destruct (index_in_range _ _ Hi) as (u & Hidx & Hnth).
    exists u. split; [exact Hnth|]. intros s'.
    pose proof (separated_dispatch env initialProduct s
                  (ClickRemoveExisting i) Hsep u) as Hafter.
    fold s' in Hafter.
    assert (imagesToDelete (form s')
            = imagesToDelete (form s) ++ [Some u]) as Edel.
    { subst s'. unfold dispatch, fire. cbn [handler].
      rewrite removeExistingImage_run. cbv zeta.
      cbn [snd form imagesToDelete]. now rewrite Hidx. }
    assert (existingImages (form s')
            = firstn (Z.to_nat i) (existingImages (form s))
                ++ skipn (S (Z.to_nat i)) (existingImages (form s))) as Eex.
    { subst s'. unfold dispatch, fire. cbn [handler].
      rewrite removeExistingImage_run. cbv zeta.
      cbn [snd form existingImages]. apply filter_index_remove0. lia. }
    assert (times_marked u (imagesToDelete (form s')) >= 1) as Hge.
    { rewrite Edel, times_marked_snoc.
      destruct (string_dec u u); [lia|congruence]. }
    split; [lia|]. split; [|exact Eex].
    apply times_zero. lia.
Qed.

(** A product with the images [A] and [B]: a file is dropped and [B] is
    removed; [A] is not marked while it is listed, and removing it then
    marks it exactly once. *)
Lemma C5_session_with_two_images :
  let env := sample_env [] false false in
  let p := sample_product (Some 7%Z) [url_A; url_B] in
  let s := run env (Some p) [DropFiles [file_1]; ClickRemoveExisting 1]
               (mount (Some p)) in
  NoDup [url_A; url_B]
  /\ (In url_A (existingImages (form s)) ->
      ~ In (Some url_A) (imagesToDelete (form s)))
  /\ times_marked url_A
       (imagesToDelete
          (form (dispatch env (Some p) s (ClickRemoveExisting 0)))) = 1.
Proof.
  cbv zeta.
  assert (NoDup [url_A; url_B]) as Hnd.
  { constructor.
    - intros [H|[]]. discriminate H.
    - constructor; [intros []|constructor]. }
  split; [exact Hnd|].
  destruct (C5_removed_url_marked_once_and_lists_disjoint
              (sample_env [] false false)
              (Some (sample_product (Some 7%Z) [url_A; url_B]))
              [DropFiles [file_1]; ClickRemoveExisting 1] Hnd)
    as (Hdisj & Hrem).
  split.
  - apply Hdisj.
  - destruct (Hrem 0%Z) as (u & Hu & Hone & _).
    + vm_compute. split; [discriminate | reflexivity].
    + vm_compute in Hu. injection Hu as <-. exact Hone.
Defined.

(** ** The delete phase *)

(** C6, as stated, fails for a marked URL whose last path segment is
    empty: [deleteOldImages] guards the request with [if (fileName)], so
    for a URL ending in '/' nothing is sent to the object store -- in
    particular no delete of the path 'products/' followed by that (empty)
    segment. *)
Lemma C6_no_delete_for_empty_last_segment :
  let env := sample_env [] false false in
  let p := sample_product (Some 7%Z) ["https://cdn.test/products/"] in
  let s := run env (Some p) [ClickRemoveExisting 0] (mount (Some p)) in
  imagesToDelete (form s) = [Some "https://cdn.test/products/"]
  /\ JS.pop (JS.split "/" "https://cdn.test/products/") = Some EmptyString
  /\ storage_log (world (snd (submit env (Some p) s))) = []
  /\ ~ In (Remove [("products/" ++ EmptyString)%string])
          (storage_log (world (snd (submit env (Some p) s)))).
Proof.
  cbv zeta. repeat split; try (vm_compute; reflexivity).
  vm_compute. intros [].
Qed.

(** C6, amended: the delete phase sends the object store one delete per
    marked URL whose last path segment is not empty, at the path
    'products/' followed by that segment, and nothing else; a refused
    delete is printed as 'Delete error:' and changes nothing else: the
    uploads follow, the record write is sent, and whether the form
    navigates depends on the answer to that write alone. *)
Theorem C6_deletes_for_named_urls_best_effort
    (env : Env) (initialProduct : option Product.t) (s : Sys) :
  all_strings (imagesToDelete (form s)) = true ->
  let removes := delete_plan (imagesToDelete (form s)) in
  let after := world (snd (submit env initialProduct s)) in
  (forall path,
      In path removes
      <-> exists url fileName,
            In (Some url) (imagesToDelete (form s))
            /\ JS.pop (JS.split "/" url) = Some fileName
            /\ fileName <> EmptyString
            /\ path = ("products/" ++ fileName)%string)
  /\ storage_log after
     = storage_log (world s)
         ++ map (fun p => Remove [p]) removes
         ++ map (fun req => Upload (fst req) (snd req))
              (upload_plan env (uuid_next (world s))
                 (newImageFiles (form s)))
  /\ (forall path e,
        In path removes -> storage_remove env [path] = Some e ->
        In (ConsoleError "Delete error:" e) (console after))
  /\ fst (submit env initialProduct s) = Ok tt
  /\ db_log after
     = db_log (world s) ++ [write_call initialProduct (product_data env s)]
  /\ router_log after
     = router_log (world s)
         ++ navigation (write_answer env initialProduct (product_data env s)).
Proof.
  intros Hall removes after. subst after.
  rewrite (submit_world_typed env initialProduct s Hall).
  rewrite submit_run. cbv zeta.
  cbn [fst storage_log console db_log router_log].
  split; [intros path; apply in_delete_plan|].
  split; [reflexivity|]. split; [|auto].
  intros path e Hin He. apply in_or_app. right. apply in_or_app. left.
  apply in_flat_map. exists path. split; [exact Hin|].
  unfold delete_complaint. rewrite He. now left.
Qed.

(** Both images of a product are removed and the object store refuses
    every delete: both deletes were sent, both refusals printed, and the
    update went through with the form navigating away. *)
Lemma C6_refused_deletes_do_not_abort :
  let env := sample_env [] true false in
  let p := sample_product (Some 7%Z) [url_A; url_B] in
  let s := run env (Some p) [ClickRemoveExisting 0; ClickRemoveExisting 0]
               (mount (Some p)) in
  storage_log (world (snd (submit env (Some p) s)))
    = [Remove ["products/A.png"]; Remove ["products/B.png"]]
  /\ In (ConsoleError "Delete error:" (StoreError "remove refused"))
        (console (world (snd (submit env (Some p) s))))
  /\ router_log (world (snd (submit env (Some p) s))) = ["/"].
Proof.
  cbv zeta.
  destruct (C6_deletes_for_named_urls_best_effort
              (sample_env [] true false)
              (Some (sample_product (Some 7%Z) [url_A; url_B]))
              (run (sample_env [] true false)
                   (Some (sample_product (Some 7%Z) [url_A; url_B]))
                   [ClickRemoveExisting 0; ClickRemoveExisting 0]
                   (mount (Some (sample_product (Some 7%Z) [url_A; url_B])))))
    as (_ & Hlog & Herr & _ & _ & Hnav).
  - vm_compute. reflexivity.
  - split; [exact Hlog|]. split; [|exact Hnav].
    apply (Herr "products/A.png").
    + vm_compute. left. reflexivity.
    + vm_compute. reflexivity.
Defined.

(** ** Update or insert *)

(** C7 at a product whose id is [0]: the test [if (initialProduct?.id)] is
    false for it, so the form -- which shows 'Edit Product' and 'Update
    Product' for this product -- sends an insert, and no update keyed by
    the id. *)
Theorem C7_zero_id_is_inserted
    (env : Env) (p : Product.t) (s : Sys) :
  Product.id p = Some 0%Z ->
  all_strings (imagesToDelete (form s)) = true ->
  db_log (world (snd (submit env (Some p) s)))
  = db_log (world s) ++ [Insert (product_data env s)].
Proof.
  intros Hid Hall. rewrite (submit_world_typed env (Some p) s Hall).
  cbv zeta. cbn [db_log].
  now rewrite (write_call_zero (Some p) p _ eq_refl Hid).
Qed.

(** The product with id [0] is submitted unchanged: one insert, no
    update. *)
Lemma C7_lamp_with_id_zero :
  let env := sample_env [] false false in
  let p := sample_product (Some 0%Z) [url_A] in
  db_log (world (snd (submit env (Some p) (mount (Some p)))))
  = [Insert {| ProductData.name := "Lamp";
               ProductData.description := "A desk lamp";
               ProductData.price := 25;
               ProductData.images := [url_A] |}].
Proof.
  cbv zeta.
  apply (C7_zero_id_is_inserted (sample_env [] false false)
           (sample_product (Some 0%Z) [url_A])
           (mount (Some (sample_product (Some 0%Z) [url_A])))).
  - reflexivity.
  - vm_compute. reflexivity.
Defined.

(** X12: for a product whose id is present and not [0], a submission that
    gets past the delete phase sends one request to the record store: an
    update of the four fields keyed by that id. *)
Lemma write_is_update_for_nonzero_id
    (env : Env) (p : Product.t) (id : Z) (s : Sys) :
  Product.id p = Some id -> id <> 0%Z ->
  all_strings (imagesToDelete (form s)) = true ->
  db_log (world (snd (submit env (Some p) s)))
  = db_log (world s) ++ [Update (product_data env s) id].
Proof.
  intros Hid Hne Hall. rewrite (submit_world_typed env (Some p) s Hall).
  cbv zeta. cbn [db_log].
  now rewrite (write_call_update (Some p) p id _ eq_refl Hid Hne).
Qed.

(** X13: without [initialProduct], or for a product without an id, a
    submission that gets past the delete phase sends one request to the
    record store: an insert of the four fields. *)
Lemma write_is_insert_without_id
    (env : Env) (initialProduct : option Product.t) (s : Sys) :
  initialProduct_id initialProduct = None ->
  all_strings (imagesToDelete (form s)) = true ->
  db_log (world (snd (submit env initialProduct s)))
  = db_log (world s) ++ [Insert (product_data env s)].
Proof.
  intros Hid Hall. rewrite (submit_world_typed env initialProduct s Hall).
  cbv zeta. cbn [db_log]. now rewrite write_call_insert.
Qed.

(** ** Submitting twice *)

(** C8: a submission followed at once by a second one sends two writes;
    the first carries [existingImages] followed by the freshly uploaded
    URLs, the second carries [existingImages] alone -- the first list
    without its fresh URLs -- because the first submission emptied the
    pending lists and left [existingImages] alone.  This holds whatever the
    stores answer, so in particular when they all succeed. *)
Theorem C8_resubmission_writes_existing_images_again
    (env : Env) (initialProduct : option Product.t) (s : Sys) :
  all_strings (imagesToDelete (form s)) = true ->
  let first := submit env initialProduct s in
  let second := submit env initialProduct (snd first) in
  exists fresh call1 call2,
    db_log (world (snd second)) = db_log (world s) ++ [call1; call2]
    /\ ProductData.images (call_data call1) = existingImages (form s) ++ fresh
    /\ ProductData.images (call_data call2) = existingImages (form s)
    /\ ProductData.images (call_data call2)
       = firstn (length (existingImages (form s)))
                (ProductData.images (call_data call1)).
Proof.
  intros Hall first second.
  assert (all_strings (imagesToDelete (form (snd first))) = true) as Hall1
    by (subst first; rewrite submit_run; reflexivity).
  exists (uploaded_urls env (uuid_next (world s)) (newImageFiles (form s))),
    (write_call initialProduct (product_data env s)),
    (write_call initialProduct (product_data env (snd first))).
  rewrite !call_data_write. subst second.
  rewrite (submit_world_typed env initialProduct (snd first) Hall1).
  cbv zeta. cbn [db_log]. subst first.
  rewrite (submit_world_typed env initialProduct s Hall). cbv zeta.
  cbn [db_log]. rewrite <- app_assoc. cbn [app].
  assert (ProductData.images
            (product_data env (snd (submit env initialProduct s)))
          = existingImages (form s)) as E2.
  { rewrite submit_run. unfold product_data, final_images.
    cbn [snd form form_after_submit newImageFiles existingImages
           ProductData.images].
    unfold uploaded_urls. cbn [upload_plan filter map]. apply app_nil_r. }
  split; [reflexivity|]. split; [reflexivity|]. split; [exact E2|].
  rewrite E2. unfold product_data, final_images. cbn [ProductData.images].
  rewrite firstn_app, Nat.sub_diag, firstn_all. cbn [firstn].
  now rewrite app_nil_r.
Qed.

(** A product with the images [A] and [B] and one dropped file, submitted
    twice: first [A], [B] and the new URL are written, then [A] and [B]. *)
Lemma C8_two_submissions_of_a_lamp :
  let env := sample_env [] false false in
  let p := sample_product (Some 7%Z) [url_A; url_B] in
  let s := run env (Some p) [DropFiles [file_1]] (mount (Some p)) in
  map (fun c => ProductData.images (call_data c))
      (db_log (world (snd (submit env (Some p)
                             (snd (submit env (Some p) s))))))
  = [[url_A; url_B; "https://cdn.test/products/uuid0.png"]; [url_A; url_B]].
Proof.
  cbv zeta.
  destruct (C8_resubmission_writes_existing_images_again
              (sample_env [] false false)
              (Some (sample_product (Some 7%Z) [url_A; url_B]))
              (run (sample_env [] false false)
                   (Some (sample_product (Some 7%Z) [url_A; url_B]))
                   [DropFiles [file_1]]
                   (mount (Some (sample_product (Some 7%Z) [url_A; url_B])))))
    as (fresh & call1 & call2 & Hlog & _).
  - vm_compute. reflexivity.
  - rewrite Hlog. vm_compute in Hlog. injection Hlog as <- <-.
    vm_compute. reflexivity.
Defined.

(** ** Removing a pending upload *)

(** C10: called with [0 <= i < newImageFiles.length], [removeNewImage]
    revokes the preview of entry [i] and of no other entry, and removes
    exactly that entry from [newImageFiles], touching nothing else; called
    with any other index it reads [.preview] of [undefined] and throws a
    [TypeError], with nothing revoked and nothing removed. *)
Theorem C10_removeNewImage_needs_valid_index (s : Sys) (i : Z) :
  let l := newImageFiles (form s) in
  let r := removeNewImage (form s) i s in
  ((0 <= i < Z.of_nat (length l))%Z ->
   exists entry,
     nth_error l (Z.to_nat i) = Some entry
     /\ fst r = Ok tt
     /\ revoked (world (snd r)) = revoked (world s) ++ [preview entry]
     /\ newImageFiles (form (snd r))
        = firstn (Z.to_nat i) l ++ skipn (S (Z.to_nat i)) l
     /\ length (newImageFiles (form (snd r))) = length l - 1
     /\ existingImages (form (snd r)) = existingImages (form s)
     /\ imagesToDelete (form (snd r)) = imagesToDelete (form s))
  /\ ((i < 0 \/ Z.of_nat (length l) <= i)%Z ->
      fst r = Throw preview_type_error /\ snd r = s).
Proof.
  intros l r. subst r. rewrite removeNewImage_run. cbv zeta. fold l. split.
  - intros Hi. destruct (index_in_range l i Hi) as (entry & -> & Hnth).
    exists entry. cbn [fst snd form world revoked newImageFiles
                         existingImages imagesToDelete].
    rewrite filter_index_remove0 by lia.
    repeat split; auto. apply remove_at_length. lia.
  - intros Hi. now rewrite (index_out_of_range l i Hi).
Qed.

(** With two pending files, removing position 0 revokes the first preview
    and leaves the second entry; positions 2 and -1 throw. *)
Lemma C10_two_pending_files :
  let env := sample_env [] false false in
  let s := run env None [DropFiles [file_1; file_2]] (mount None) in
  (revoked (world (snd (removeNewImage (form s) 0 s))) = ["blob:0"]
   /\ map preview (newImageFiles (form (snd (removeNewImage (form s) 0 s))))
      = ["blob:1"])
  /\ fst (removeNewImage (form s) 2 s) = Throw preview_type_error
  /\ fst (removeNewImage (form s) (-1) s) = Throw preview_type_error.
Proof.
  cbv zeta.
  pose (s := run (sample_env [] false false) None
                 [DropFiles [file_1; file_2]] (mount None)).
  fold s. split; [|split].
  - destruct (proj1 (C10_removeNewImage_needs_valid_index s 0))
      as (entry & Hentry & _ & Hrev & Hnew & _).
    + vm_compute. split; [discriminate | reflexivity].
    + vm_compute in Hentry. injection Hentry as <-.
      split; [exact Hrev | now rewrite Hnew].
  - apply (proj2 (C10_removeNewImage_needs_valid_index s 2)).
    right. vm_compute. discriminate.
  - apply (proj2 (C10_removeNewImage_needs_valid_index s (-1))).
    left. reflexivity.
Defined.

(** ** Two sessions from start to end *)

(** On a new product two files are dropped and the first is removed again:
    one pending entry is left and the preview of the removed one is
    revoked.  The submission then inserts the product with one image,
    revokes the other preview, empties both pending lists and navigates to
    the list. *)
Example session_new_product :
  let env := sample_env [] false false in
  let s1 := run env None [DropFiles [file_1; file_2]] (mount None) in
  let s2 := dispatch env None s1 (ClickRemoveNew 0) in
  let s3 := dispatch env None s2 SubmitForm in
  length (newImageFiles (form s1)) = 2
  /\ map preview (newImageFiles (form s2)) = ["blob:1"]
  /\ revoked (world s2) = ["blob:0"]
  /\ map (fun c => ProductData.images (call_data c)) (db_log (world s3))
     = [["https://cdn.test/products/uuid0.jpeg"]]
  /\ revoked (world s3) = ["blob:0"; "blob:1"]
  /\ newImageFiles (form s3) = []
  /\ imagesToDelete (form s3) = []
  /\ router_log (world s3) = ["/"].
Proof. vm_compute. repeat split. Qed.

(** On a product with the images [A] and [B] the first is removed: [B]
    stays, [A] is marked.  The submission then deletes 'products/A.png'
    and updates the record to the images [[B]]. *)
Example session_remove_existing :
  let env := sample_env [] false false in
  let p := sample_product (Some 7%Z) [url_A; url_B] in
  let s1 := dispatch env (Some p) (mount (Some p)) (ClickRemoveExisting 0) in
  let s2 := dispatch env (Some p) s1 SubmitForm in
  existingImages (form s1) = [url_B]
  /\ imagesToDelete (form s1) = [Some url_A]
  /\ storage_log (world s2) = [Remove ["products/A.png"]]
  /\ db_log (world s2)
     = [Update {| ProductData.name := "Lamp";
                  ProductData.description := "A desk lamp";
                  ProductData.price := 25;
                  ProductData.images := [url_B] |} 7].
Proof. vm_compute. repeat split. Qed.

(** Outside its precondition [removeExistingImage] marks [undefined]; the
    next submission then throws in the delete phase, which the [catch]
    block prints, and no write is sent. *)
Example session_out_of_range_removal :
  let env := sample_env [] false false in
  let p := sample_product (Some 7%Z) [url_A] in
  let s1 := dispatch env (Some p) (mount (Some p)) (ClickRemoveExisting 5) in
  let s2 := dispatch env (Some p) s1 SubmitForm in
  existingImages (form s1) = [url_A]
  /\ imagesToDelete (form s1) = [None]
  /\ console (world s2)
     = [ConsoleError "Error saving product:" split_type_error]
  /\ db_log (world s2) = []
  /\ router_log (world s2) = [].
Proof. vm_compute. repeat split. Qed.

(** * Further properties of the form *)

(** ** Dropping files *)

Lemma drop_plan_files (env : Env) (n : nat) (fs : list File) :
  map file (drop_plan env n fs) = fs.
Proof.
  revert n. induction fs as [|f fs IH]; intros n; simpl; [|rewrite IH];
    reflexivity.
Qed.

Lemma drop_plan_length (env : Env) (n : nat) (fs : list File) :
  length (drop_plan env n fs) = length fs.
Proof.
  rewrite <- (drop_plan_files env n fs) at 2. now rewrite length_map.
Qed.

Lemma drop_plan_previews (env : Env) (n : nat) (fs : list File) :
  map preview (drop_plan env n fs)
  = map (object_url env) (combine (seq n (length fs)) fs).
Proof.
  revert n. induction fs as [|f fs IH]; intros n; simpl; [|rewrite IH];
    reflexivity.
Qed.

(** X1: [onDrop] never fails and talks to no store: it appends one entry
    per accepted file, in the order of the files and after the entries
    that were pending, calls [URL.createObjectURL] once per file, and
    leaves the other lists, the console, the requests and the revoked URLs
    alone. *)
Theorem onDrop_appends_one_entry_per_file
    (env : Env) (acceptedFiles : list File) (s : Sys) :
  fst (onDrop env acceptedFiles s) = Ok tt
  /\ (exists added,
        newImageFiles (form (snd (onDrop env acceptedFiles s)))
        = newImageFiles (form s) ++ added
        /\ map file added = acceptedFiles
        /\ map preview added
           = map (object_url env)
               (combine (seq (blob_next (world s)) (length acceptedFiles))
                        acceptedFiles))
  /\ existingImages (form (snd (onDrop env acceptedFiles s)))
     = existingImages (form s)
  /\ imagesToDelete (form (snd (onDrop env acceptedFiles s)))
     = imagesToDelete (form s)
  /\ blob_next (world (snd (onDrop env acceptedFiles s)))
     = blob_next (world s) + length acceptedFiles
  /\ revoked (world (snd (onDrop env acceptedFiles s))) = revoked (world s)
  /\ console (world (snd (onDrop env acceptedFiles s))) = console (world s)
  /\ storage_log (world (snd (onDrop env acceptedFiles s)))
     = storage_log (world s)
  /\ db_log (world (snd (onDrop env acceptedFiles s))) = db_log (world s)
  /\ router_log (world (snd (onDrop env acceptedFiles s)))
     = router_log (world s).
Proof.
  rewrite onDrop_run. cbv zeta.
  cbn [fst snd form world newImageFiles existingImages imagesToDelete
         blob_next revoked console storage_log db_log router_log].
  split; [reflexivity|]. split; [|repeat split].
  exists (drop_plan env (blob_next (world s)) acceptedFiles).
  split; [reflexivity|]. split.
  - apply drop_plan_files.
  - apply drop_plan_previews.
Qed.

(** ** Object URLs over a session *)









(** ** Outside the precondition of [removeExistingImage] *)

(** X4: called with an index outside [existingImages],
    [removeExistingImage] does not fail: it leaves [existingImages] and the
    world as they are and appends [undefined] to [imagesToDelete], which
    from then on does not hold strings only. *)
Theorem removeExistingImage_out_of_range_marks_undefined (s : Sys) (i : Z) :
  (i < 0 \/ Z.of_nat (length (existingImages (form s))) <= i)%Z ->
  fst (removeExistingImage (form s) i s) = Ok tt
  /\ existingImages (form (snd (removeExistingImage (form s) i s)))
     = existingImages (form s)
  /\ imagesToDelete (form (snd (removeExistingImage (form s) i s)))
     = imagesToDelete (form s) ++ [None]
  /\ all_strings
       (imagesToDelete (form (snd (removeExistingImage (form s) i s))))
     = false
  /\ newImageFiles (form (snd (removeExistingImage (form s) i s)))
     = newImageFiles (form s)
  /\ world (snd (removeExistingImage (form s) i s)) = world s.
Proof.
  intros Hi. rewrite removeExistingImage_run. cbv zeta.
  cbn [fst snd form world existingImages imagesToDelete newImageFiles].
  rewrite (index_out_of_range _ _ Hi).
  assert (JS.filter_index (fun index => JS.strict_neq index i) 0
            (existingImages (form s)) = existingImages (form s)) as ->.
  { destruct Hi; [now apply filter_index_negative
                 | now apply filter_index_beyond]. }
  repeat split. unfold all_strings. rewrite forallb_app. cbn.
  apply andb_false_r.
Qed.

(** Position 5 of a list of one image. *)
Lemma removeExistingImage_out_of_range_example :
  let p := sample_product (Some 7%Z) [url_A] in
  imagesToDelete
    (form (snd (removeExistingImage (form (mount (Some p))) 5
                  (mount (Some p))))) = [None]
  /\ existingImages
       (form (snd (removeExistingImage (form (mount (Some p))) 5
                     (mount (Some p))))) = [url_A].
Proof.
  cbv zeta.
  destruct (removeExistingImage_out_of_range_marks_undefined
              (mount (Some (sample_product (Some 7%Z) [url_A]))) 5)
    as (_ & Hex & Hdel & _).
  - right. vm_compute. discriminate.
  - split; [exact Hdel | exact Hex].
Defined.

(** X5: a submission that finds an [undefined] slot in [imagesToDelete]
    stops in the delete phase.  The deletes of the named URLs are still
    sent, but no file is uploaded, no [uuidv4] is drawn, nothing is written
    to the record store and the form does not navigate; the handler
    completes normally.  What the console gains is the [TypeError],
    printed as 'Error saving product:', and one 'Delete error:' per
    refused delete -- in no fixed order, the handler does not wait for the
    answers of the deletes. *)
Theorem submit_with_undefined_slot_stops_before_uploads
    (env : Env) (initialProduct : option Product.t) (s : Sys) :
  all_strings (imagesToDelete (form s)) = false ->
  fst (submit env initialProduct s) = Ok tt
  /\ storage_log (world (snd (submit env initialProduct s)))
     = storage_log (world s)
         ++ map (fun p => Remove [p]) (delete_plan (imagesToDelete (form s)))
  /\ uuid_next (world (snd (submit env initialProduct s)))
     = uuid_next (world s)
  /\ db_log (world (snd (submit env initialProduct s))) = db_log (world s)
  /\ router_log (world (snd (submit env initialProduct s)))
     = router_log (world s)
  /\ exists printed,
       console (world (snd (submit env initialProduct s)))
       = console (world s) ++ printed
       /\ Permutation printed
            (ConsoleError "Error saving product:" split_type_error
               :: flat_map (delete_complaint env)
                    (delete_plan (imagesToDelete (form s)))).
Proof.
  intros Hall. rewrite submit_run. cbn [fst snd world].
  unfold world_after_submit. cbv zeta. rewrite Hall.
  cbn [storage_log uuid_next db_log router_log console].
  repeat (split; [reflexivity|]).
  eexists. split; [reflexivity|].
  apply Permutation_sym, Permutation_cons_append.
Qed.

(** A product with the images [A] and [B]: [A] is removed, then position 7
    is "removed".  The submission deletes [A]'s object and stops. *)
Lemma submit_with_undefined_slot_example :
  let env := sample_env [] false false in
  let p := sample_product (Some 7%Z) [url_A; url_B] in
  let s := run env (Some p)
               [ClickRemoveExisting 0; ClickRemoveExisting 7;
                DropFiles [file_1]]
               (mount (Some p)) in
  storage_log (world (snd (submit env (Some p) s)))
    = [Remove ["products/A.png"]]
  /\ db_log (world (snd (submit env (Some p) s))) = []
  /\ router_log (world (snd (submit env (Some p) s))) = []
  /\ console (world (snd (submit env (Some p) s)))
     = [ConsoleError "Error saving product:" split_type_error].
Proof.
  cbv zeta.
  destruct (submit_with_undefined_slot_stops_before_uploads
              (sample_env [] false false)
              (Some (sample_product (Some 7%Z) [url_A; url_B]))
              (run (sample_env [] false false)
                   (Some (sample_product (Some 7%Z) [url_A; url_B]))
                   [ClickRemoveExisting 0; ClickRemoveExisting 7;
                    DropFiles [file_1]]
                   (mount (Some (sample_product (Some 7%Z) [url_A; url_B])))))
    as (_ & Hst & _ & Hdb & Hnav & printed & Hcon & Hperm).
  - vm_compute. reflexivity.
  - split; [exact Hst|]. split; [exact Hdb|]. split; [exact Hnav|].
    apply Permutation_sym, Permutation_length_1_inv in Hperm.
    subst printed. exact Hcon.
Defined.

(** ** Which handler can throw *)

(** X6: an event of the form either runs its handler to a normal end, or
    it is a click on the remove button of a pending upload with an index
    outside [newImageFiles], which throws the [TypeError] of reading
    [.preview] of [undefined] and changes nothing.  In particular
    [handleSubmit] never throws, whatever the stores answer. *)
Theorem only_removeNewImage_can_throw
    (env : Env) (initialProduct : option Product.t) (a : action) (s : Sys) :
  fst (fire env initialProduct a s) = Ok tt
  \/ (exists i,
         a = ClickRemoveNew i
         /\ (i < 0 \/ Z.of_nat (length (newImageFiles (form s))) <= i)%Z
         /\ fire env initialProduct a s = (Throw preview_type_error, s)).
Proof.
  unfold fire. destruct a; cbn [handler]; try (left; reflexivity).
  - left. now rewrite onDrop_run.
  - rewrite removeNewImage_run. cbv zeta.
    destruct (JS.index (newImageFiles (form s)) index) as [entry|] eqn:E.
    + left. reflexivity.
    + right. exists index. split; [reflexivity|]. split; [|reflexivity].
      unfold JS.index in E. destruct (Z.ltb_spec index 0); [now left|].
      right. apply nth_error_None in E. lia.
  - left. change (handleSubmit env initialProduct (form s) s)
      with (submit env initialProduct s). now rewrite submit_run.
Qed.

(** ** The images of the product over a session *)

Lemma times_conserved_dispatch
    (env : Env) (initialProduct : option Product.t) (s : Sys) (a : action)
    (u : string) :
  let s' := dispatch env initialProduct s a in
  times u (existingImages (form s'))
    + times_marked u (imagesToDelete (form s'))
  <= times u (existingImages (form s))
       + times_marked u (imagesToDelete (form s))
  /\ (is_submit a = false ->
      times u (existingImages (form s'))
        + times_marked u (imagesToDelete (form s'))
      = times u (existingImages (form s))
          + times_marked u (imagesToDelete (form s))).
Proof.
  cbv zeta. unfold dispatch, fire.
  destruct a; cbn [handler is_submit];
    try (split; [apply Nat.le_refl | reflexivity]).
  - rewrite onDrop_run. cbv zeta. cbn [snd form existingImages
      imagesToDelete]. split; [lia | reflexivity].
  - rewrite removeNewImage_run. cbv zeta.
    destruct (JS.index (newImageFiles (form s)) index);
      cbn [snd form existingImages imagesToDelete];
      (split; [lia | reflexivity]).
  - rewrite removeExistingImage_run. cbv zeta.
    cbn [snd form existingImages imagesToDelete].
    rewrite remove_existing_conserves. split; [lia | reflexivity].
  - change (handleSubmit env initialProduct (form s) s)
      with (submit env initialProduct s). rewrite submit_run.
    unfold form_after_submit. cbn [snd form existingImages imagesToDelete].
    change (times_marked u []) with 0. split; [lia | discriminate].
Qed.

Lemma times_conserved_run
    (env : Env) (initialProduct : option Product.t) (acts : list action)
    (s : Sys) (u : string) :
  let s' := run env initialProduct acts s in
  times u (existingImages (form s'))
    + times_marked u (imagesToDelete (form s'))
  <= times u (existingImages (form s))
       + times_marked u (imagesToDelete (form s))
  /\ (no_submit acts = true ->
      times u (existingImages (form s'))
        + times_marked u (imagesToDelete (form s'))
      = times u (existingImages (form s))
          + times_marked u (imagesToDelete (form s))).
Proof.
  cbv zeta. revert s.
  induction acts as [|a acts IH]; intros s; cbn [run fold_left].
  - split; [lia | reflexivity].
  - destruct (times_conserved_dispatch env initialProduct s a u)
      as [Hle Heq].
    destruct (IH (dispatch env initialProduct s a)) as [IHle IHeq].
    unfold run in *. split; [lia|].
    unfold no_submit. cbn [forallb]. intros H.
    apply andb_prop in H as [Ha Hrest].
    apply negb_true_iff in Ha.
    rewrite (IHeq Hrest). now apply Heq.
Qed.

Lemma times_at_mount (initialProduct : option Product.t) (u : string) :
  times u (existingImages (form (mount initialProduct)))
    + times_marked u (imagesToDelete (form (mount initialProduct)))
  = times u (initial_images initialProduct).
Proof. unfold initial_images. cbn. lia. Qed.

(** X7: the form never invents an image.  At every point of a session
    each URL occurs in [existingImages] and [imagesToDelete] together at
    most as often as in the images of the product the form was mounted on;
    and until the first submission exactly as often: every image of the
    product is either still listed or marked for deletion. *)
Theorem session_conserves_product_images
    (env : Env) (initialProduct : option Product.t) (acts : list action)
    (u : string) :
  let s := run env initialProduct acts (mount initialProduct) in
  times u (existingImages (form s))
    + times_marked u (imagesToDelete (form s))
  <= times u (initial_images initialProduct)
  /\ (no_submit acts = true ->
      times u (existingImages (form s))
        + times_marked u (imagesToDelete (form s))
      = times u (initial_images initialProduct)).
Proof.
  cbv zeta. rewrite <- (times_at_mount initialProduct u).
  apply times_conserved_run.
Qed.

(** A product with the images [A] and [B]: after removing [A] and dropping
    a file, [A] is counted once (as marked) and [B] once (as listed). *)
Lemma session_conserves_product_images_example :
  let env := sample_env [] false false in
  let p := sample_product (Some 7%Z) [url_A; url_B] in
  let s := run env (Some p) [ClickRemoveExisting 0; DropFiles [file_1]]
               (mount (Some p)) in
  times url_A (existingImages (form s))
    + times_marked url_A (imagesToDelete (form s)) = 1.
Proof.
  cbv zeta.
  apply (proj2 (session_conserves_product_images
                  (sample_env [] false false)
                  (Some (sample_product (Some 7%Z) [url_A; url_B]))
                  [ClickRemoveExisting 0; DropFiles [file_1]] url_A)).
  reflexivity.
Defined.

(** ** Kept or marked *)

(** X20: for a product whose image list has no duplicate, until the first
    submission every image of the product is in exactly one of the two
    lists: it is still in [existingImages] and not marked, or it is marked
    in [imagesToDelete] and no longer in [existingImages]. *)
Theorem every_product_image_is_kept_or_marked
    (env : Env) (initialProduct : option Product.t) (acts : list action)
    (u : string) :
  NoDup (initial_images initialProduct) ->
  no_submit acts = true ->
  In u (initial_images initialProduct) ->
  let s := run env initialProduct acts (mount initialProduct) in
  (In u (existingImages (form s)) /\ ~ In (Some u) (imagesToDelete (form s)))
  \/ (~ In u (existingImages (form s))
      /\ In (Some u) (imagesToDelete (form s))).
Proof.
  intros Hnd Hacts Hin s.
  pose proof (proj2 (times_conserved_run env initialProduct acts
                       (mount initialProduct) u) Hacts) as Hsum.
  rewrite times_at_mount in Hsum. fold s in Hsum.
  assert (times u (initial_images initialProduct) = 1) as Hone.
  { pose proof (proj1 (times_NoDup _) Hnd u).
    apply times_pos in Hin. lia. }
  rewrite Hone in Hsum.
  destruct (times u (existingImages (form s))) as [|k] eqn:Hk.
  - right. split.
    + now apply times_zero.
    + apply in_non_null, times_pos. unfold times_marked in Hsum. lia.
  - left. split.
    + apply times_pos. lia.
    + intros Hm. apply in_non_null, times_pos in Hm.
      unfold times_marked in Hsum. lia.
Qed.

(** Of the images [A] and [B], [A] is removed: [A] is marked and gone, [B]
    is kept. *)
Lemma kept_or_marked_example :
  let env := sample_env [] false false in
  let p := sample_product (Some 7%Z) [url_A; url_B] in
  let s := run env (Some p) [ClickRemoveExisting 0] (mount (Some p)) in
  ((In url_A (existingImages (form s))
    /\ ~ In (Some url_A) (imagesToDelete (form s)))
   \/ (~ In url_A (existingImages (form s))
       /\ In (Some url_A) (imagesToDelete (form s))))
  /\ existingImages (form s) = [url_B].
Proof.
  cbv zeta. split; [|vm_compute; reflexivity].
  apply (every_product_image_is_kept_or_marked
           (sample_env [] false false)
           (Some (sample_product (Some 7%Z) [url_A; url_B]))
           [ClickRemoveExisting 0] url_A).
  - constructor.
    + intros [H|[]]. discriminate H.
    + constructor; [intros []|constructor].
  - reflexivity.
  - left. reflexivity.
Defined.

(** ** Dropping a file and taking it back *)

(** X19: dropping one file and removing the entry it created (the last
    one) puts [newImageFiles] back as it was; what remains of the detour
    is one call of [URL.createObjectURL] and the revocation of the URL it
    returned. *)
Theorem drop_then_remove_restores_pending
    (env : Env) (initialProduct : option Product.t) (f : File) (s : Sys) :
  let i := Z.of_nat (length (newImageFiles (form s))) in
  let s' := run env initialProduct [DropFiles [f]; ClickRemoveNew i] s in
  newImageFiles (form s') = newImageFiles (form s)
  /\ revoked (world s')
     = revoked (world s) ++ [createObjectURL env (blob_next (world s)) f]
  /\ blob_next (world s') = S (blob_next (world s))
  /\ existingImages (form s') = existingImages (form s)
  /\ imagesToDelete (form s') = imagesToDelete (form s).
Proof.
  intros i s'.
  assert (s' = mkSys
                 (mkFormState (name (form s)) (description (form s))
                    (price (form s)) (newImageFiles (form s))
                    (existingImages (form s)) (imagesToDelete (form s))
                    (isLoading (form s)) (selectedImageUrl (form s)))
                 (mkWorld
                    (revoked (world s)
                       ++ [createObjectURL env (blob_next (world s)) f])
                    (console (world s)) (storage_log (world s))
                    (db_log (world s)) (router_log (world s))
                    (uuid_next (world s)) (S (blob_next (world s)))))
    as ->; [|repeat split].
  subst s' i. cbn [run fold_left]. unfold dispatch, fire. cbn [handler].
  rewrite onDrop_run. cbv zeta. cbn [snd]. rewrite removeNewImage_run.
  cbv zeta.
  cbn [form world newImageFiles drop_plan revoked blob_next
         existingImages imagesToDelete].
  set (l := newImageFiles (form s)).
  set (e := {| file := f;
               preview := createObjectURL env (blob_next (world s)) f |}).
  assert (JS.index (l ++ [e]) (Z.of_nat (length l)) = Some e) as ->.
  { unfold JS.index. destruct (Z.ltb_spec (Z.of_nat (length l)) 0); [lia|].
    rewrite Nat2Z.id, nth_error_app2 by lia.
    now rewrite Nat.sub_diag. }
  rewrite filter_index_remove0 by lia. rewrite Nat2Z.id.
  rewrite firstn_app, Nat.sub_diag, firstn_all. cbn [firstn].
  rewrite skipn_all2 by (rewrite length_app; simpl; lia).
  rewrite !app_nil_r. cbn [snd preview length name description price
    isLoading selectedImageUrl console storage_log db_log router_log
    uuid_next]. subst e. cbn [preview].
  now rewrite Nat.add_1_r.
Qed.

(** ** Sessions that respect the precondition *)

(** A product with two images: both are removed, a file is dropped and the
    form is submitted; every index is in range when it is used. *)
Lemma all_strings_session_example :
  let env := sample_env [] false false in
  let p := sample_product (Some 7%Z) [url_A; url_B] in
  all_strings
    (imagesToDelete
       (form (run env (Some p)
                  [ClickRemoveExisting 1; ClickRemoveExisting 0;
                   DropFiles [file_1]]
                  (mount (Some p))))) = true.
Proof.
  cbv zeta.
  apply (all_strings_session (sample_env [] false false)
           (Some (sample_product (Some 7%Z) [url_A; url_B]))).
  cbn [in_range_run in_range_action]. repeat split; vm_compute;
    try reflexivity; discriminate.
Defined.

(** ** File names and paths *)

Lemma pop_snoc {A : Type} (l : list A) (x : A) : JS.pop (l ++ [x]) = Some x.
Proof.
  induction l as [|a l IH]; [reflexivity|].
  cbn [app JS.pop]. destruct (l ++ [x]) eqn:E; [|exact IH].
  destruct l; discriminate.
Qed.

Lemma pop_in {A : Type} (l : list A) (x : A) : JS.pop l = Some x -> In x l.
Proof.
  induction l as [|a l IH]; [discriminate|].
  destruct l as [|b l]; cbn [JS.pop].
  - intros [= ->]. now left.
  - intros H. right. now apply IH.
Qed.

Lemma sep_free_app (sep : ascii) (a b : string) :
  sep_free sep (a ++ b) = sep_free sep a && sep_free sep b.
Proof.
  induction a as [|c a IH]; simpl; [reflexivity|].
  now rewrite IH, andb_assoc.
Qed.

Lemma sep_free_split (sep : ascii) (s : string) :
  sep_free sep s = true -> JS.split sep s = [s].
Proof.
  induction s as [|c s IH]; simpl; [reflexivity|].
  intros H. apply andb_prop in H as [Hc Hs].
  apply negb_true_iff in Hc. rewrite Hc, (IH Hs). reflexivity.
Qed.

(** The pieces of a split do not contain the separator, and contain no
    other character that the string does not contain. *)
Lemma split_pieces_free (sep c : ascii) (s : string) :
  c = sep \/ sep_free c s = true ->
  Forall (fun piece => sep_free c piece = true) (JS.split sep s).
Proof.
  induction s as [|d s IH]; intros H.
  - repeat constructor.
  - cbn [JS.split]. destruct (Ascii.eqb_spec d sep) as [->|Hne].
    + constructor; [reflexivity|]. apply IH.
      destruct H as [H|H]; [now left|]. right. simpl in H.
      now apply andb_prop in H as [_ H].
    + assert (negb (Ascii.eqb d c) = true /\ (c = sep \/ sep_free c s = true))
        as [Hd Hrest].
      { destruct H as [->|H].
        - split; [|now left]. apply negb_true_iff.
          now apply Ascii.eqb_neq.
        - simpl in H. apply andb_prop in H as [H1 H2]. auto. }
      specialize (IH Hrest).
      destruct (JS.split sep s) as [|h t]; [repeat constructor; simpl;
        now rewrite Hd|].
      inversion IH as [|? ? Hh Ht]; subst. constructor; [|exact Ht].
      simpl. now rewrite Hd, Hh.
Qed.

Lemma split_last_piece (sep : ascii) (a b : string) :
  sep_free sep b = true ->
  exists pieces, JS.split sep (a ++ String sep b) = pieces ++ [b]
                 /\ pieces <> [].
Proof.
  intros Hb. induction a as [|c a (pieces & E & Hne)].
  - exists [EmptyString]. cbn [append JS.split].
    rewrite Ascii.eqb_refl, (sep_free_split _ _ Hb).
    split; [reflexivity | discriminate].
  - cbn [append JS.split]. rewrite E. destruct (Ascii.eqb c sep).
    + exists (EmptyString :: pieces). split; [reflexivity | discriminate].
    + destruct pieces as [|h t]; [contradiction|].
      exists (String c h :: t). split; [reflexivity | discriminate].
Qed.

Lemma pop_split_last (sep : ascii) (a b : string) :
  sep_free sep b = true ->
  JS.pop (JS.split sep (a ++ String sep b)) = Some b.
Proof.
  intros Hb. destruct (split_last_piece sep a b Hb) as (pieces & -> & _).
  apply pop_snoc.
Qed.

Lemma pop_split_free (sep : ascii) (s x : string) :
  JS.pop (JS.split sep s) = Some x -> sep_free sep x = true.
Proof.
  intros H. apply pop_in in H.
  pose proof (split_pieces_free sep sep s (or_introl eq_refl)) as Hall.
  rewrite Forall_forall in Hall. now apply Hall.
Qed.

Lemma append_inj_l (p a b : string) :
  (p ++ a)%string = (p ++ b)%string -> a = b.
Proof.
  induction p as [|c p IH]; simpl; [auto|]. intros [= H]. now apply IH.
Qed.

Lemma append_assoc_js (a b c : string) :
  ((a ++ b) ++ c)%string = (a ++ b ++ c)%string.
Proof. induction a as [|x a IH]; simpl; [|rewrite IH]; reflexivity. Qed.

(** What stands before the last separator is determined by the whole. *)
Lemma last_sep_inj (sep : ascii) (u1 u2 e1 e2 : string) :
  sep_free sep e1 = true -> sep_free sep e2 = true ->
  (u1 ++ String sep e1)%string = (u2 ++ String sep e2)%string ->
  u1 = u2.
Proof.
  intros H1 H2. revert u2.
  assert (forall u e, sep_free sep (u ++ String sep e) = false) as Hno.
  { intros u e. rewrite sep_free_app. simpl. rewrite Ascii.eqb_refl.
    simpl. apply andb_false_r. }
  induction u1 as [|c u1 IH]; intros [|d u2]; simpl; intros E.
  - reflexivity.
  - injection E as -> ->. rewrite Hno in H1. discriminate.
  - injection E as -> <-. rewrite Hno in H2. discriminate.
  - injection E as -> E. f_equal. now apply IH.
Qed.

(** X9: the object name of an upload ends with the part of the file name
    after its last dot; a file name without a dot is used whole as the
    "extension". *)
Theorem upload_names_by_last_dot_segment
    (env : Env) (entry : NewImage) (s : Sys) (ext : string) :
  sep_free "." ext = true ->
  file_name (file entry) = ext
  \/ (exists base, file_name (file entry) = (base ++ "." ++ ext)%string) ->
  storage_log (world (snd (upload_one env entry s)))
  = storage_log (world s)
      ++ [Upload ("products/" ++ uuidv4 env (uuid_next (world s)) ++ "."
                    ++ ext)%string
                 (file entry)].
Proof.
  intros Hext Hname. rewrite upload_one_run. cbv zeta.
  cbn [snd world storage_log fst]. unfold upload_path.
  assert (JS.pop (JS.split "." (file_name (file entry))) = Some ext) as ->.
  { destruct Hname as [->|[base ->]].
    - now rewrite (sep_free_split _ _ Hext).
    - now apply pop_split_last. }
  reflexivity.
Qed.

Lemma upload_names_example :
  let env := sample_env [] false false in
  storage_log
    (world (snd (upload_one env
                   {| file := {| file_name := "holiday.2024.JPG";
                                 file_blob := 3 |};
                      preview := "blob:0" |} (mount None))))
  = [Upload "products/uuid0.JPG"
            {| file_name := "holiday.2024.JPG"; file_blob := 3 |}]
  /\ storage_log
       (world (snd (upload_one env
                      {| file := {| file_name := "README"; file_blob := 4 |};
                         preview := "blob:1" |} (mount None))))
     = [Upload "products/uuid0.README"
               {| file_name := "README"; file_blob := 4 |}].
Proof.
  cbv zeta. split.
  - apply (upload_names_by_last_dot_segment (sample_env [] false false)
             {| file := {| file_name := "holiday.2024.JPG"; file_blob := 3 |};
                preview := "blob:0" |} (mount None) "JPG").
    + reflexivity.
    + right. exists "holiday.2024". reflexivity.
  - apply (upload_names_by_last_dot_segment (sample_env [] false false)
             {| file := {| file_name := "README"; file_blob := 4 |};
                preview := "blob:1" |} (mount None) "README").
    + reflexivity.
    + left. reflexivity.
Defined.

Lemma upload_path_inj (env : Env) (n m : nat) (f g : File) :
  upload_path env n f = upload_path env m g -> uuidv4 env n = uuidv4 env m.
Proof.
  unfold upload_path. intros H. apply append_inj_l in H.
  destruct (pop_split_some "." (file_name f)) as [e1 E1].
  destruct (pop_split_some "." (file_name g)) as [e2 E2].
  rewrite E1, E2 in H. cbn [JS.interpolate] in H.
  apply (last_sep_inj "." _ _ e1 e2); [| |exact H];
    eapply pop_split_free; eassumption.
Qed.

Lemma upload_plan_paths_distinct (env : Env) (n : nat) (l : list NewImage) :
  NoDup (map (uuidv4 env) (seq n (length l))) ->
  NoDup (map fst (upload_plan env n l)).
Proof.
  revert n. induction l as [|x l IH]; intros n Hnd; [constructor|].
  cbn [length seq map upload_plan fst] in *.
  inversion Hnd as [|? ? Hnotin Hnd']; subst. constructor.
  - intros Hin. apply Hnotin. clear - Hin.
    assert (forall k, In (upload_path env n (file x))
                         (map fst (upload_plan env k l)) ->
                      In (uuidv4 env n)
                         (map (uuidv4 env) (seq k (length l)))) as Hgen.
    { clear Hin. induction l as [|y l IHl]; intros k Hin; [contradiction|].
      cbn [length seq map upload_plan fst In] in *.
      destruct Hin as [Heq|Hin].
      - left. symmetry. now apply upload_path_inj in Heq.
      - right. now apply IHl. }
    now apply Hgen.
  - now apply IH.
Qed.

(** X10: when the identifiers [uuidv4] hands out during one upload phase
    are pairwise different, the files of that phase are uploaded under
    pairwise different paths, whatever their names are. *)
Theorem uploads_of_one_submission_get_distinct_paths
    (env : Env) (cap : FormState) (s : Sys) :
  NoDup (map (uuidv4 env)
             (seq (uuid_next (world s)) (length (newImageFiles cap)))) ->
  exists plan,
    storage_log (world (snd (uploadImages env cap s)))
    = storage_log (world s)
        ++ map (fun req => Upload (fst req) (snd req)) plan
    /\ map snd plan = map file (newImageFiles cap)
    /\ NoDup (map fst plan).
Proof.
  intros Hnd. rewrite uploadImages_run. cbv zeta.
  exists (upload_plan env (uuid_next (world s)) (newImageFiles cap)).
  split; [reflexivity|]. split; [apply upload_plan_files|].
  now apply upload_plan_paths_distinct.
Qed.

(** Two files with the same name. *)
Lemma uploads_distinct_paths_example :
  let env := sample_env [] false false in
  let s := run env None [DropFiles [file_1; file_1]] (mount None) in
  map file_name (map file (newImageFiles (form s)))
  = ["front.png"; "front.png"]
  /\ exists plan,
       storage_log (world (snd (uploadImages env (form s) s)))
       = storage_log (world s)
           ++ map (fun req => Upload (fst req) (snd req)) plan
       /\ map snd plan = map file (newImageFiles (form s))
       /\ NoDup (map fst plan).
Proof.
  cbv zeta. split; [vm_compute; reflexivity|].
  apply (uploads_of_one_submission_get_distinct_paths
           (sample_env [] false false)).
  vm_compute. constructor.
  - intros [H|[]]. discriminate H.
  - constructor; [intros []|constructor].
Defined.

Lemma truthy_nonempty (a b : string) (c : ascii) :
  JS.truthy_string (Some (a ++ String c b)%string) = true.
Proof. destruct a; reflexivity. Qed.

(** X11: an image uploaded by this form can be deleted by this form.  When
    the public URL of a path is that path behind a fixed prefix, and
    neither the identifier nor the file name contains a slash, the URL that
    the upload of an entry yields makes the delete phase remove exactly the
    path the entry was uploaded under. *)
Theorem uploaded_url_leads_back_to_its_object
    (env : Env) (prefix : string) (entry : NewImage) (s s' : Sys)
    (url : string) :
  (forall path, getPublicUrl env path = (prefix ++ path)%string) ->
  sep_free "/" (uuidv4 env (uuid_next (world s))) = true ->
  sep_free "/" (file_name (file entry)) = true ->
  fst (upload_one env entry s) = Ok (Some url) ->
  exists path,
    storage_log (world (snd (upload_one env entry s)))
    = storage_log (world s) ++ [Upload path (file entry)]
    /\ storage_log (world (snd (delete_one env (Some url) s')))
       = storage_log (world s') ++ [Remove [path]].
Proof.
  intros Hurl Huuid Hname Hup. rewrite upload_one_run in *. cbv zeta in *.
  cbn [fst snd world storage_log] in *.
  exists (upload_path env (uuid_next (world s)) (file entry)).
  split; [reflexivity|].
  unfold upload_answer in Hup. cbn [fst] in Hup.
  destruct (upload_ok env _); [|discriminate].
  injection Hup as <-. rewrite Hurl, delete_one_run. cbv zeta.
  cbn [snd world storage_log]. f_equal.
  unfold upload_path, delete_path.
  destruct (pop_split_some "." (file_name (file entry))) as [ext Eext].
  rewrite Eext. cbn [JS.interpolate].
  assert (sep_free "/" ext = true) as Hext.
  { apply pop_in in Eext.
    pose proof (split_pieces_free "." "/" (file_name (file entry))
                  (or_intror Hname)) as Hall.
    rewrite Forall_forall in Hall. now apply Hall. }
  set (name := (uuidv4 env (uuid_next (world s)) ++ "." ++ ext)%string).
  assert (sep_free "/" name = true) as Hfree.
  { unfold name. rewrite sep_free_app, Huuid. simpl. exact Hext. }
  assert ((prefix ++ "products/" ++ name)%string
          = ((prefix ++ "products") ++ String "/" name)%string) as ->.
  { now rewrite append_assoc_js. }
  rewrite (pop_split_last "/" _ name Hfree). cbn [JS.interpolate].
  unfold name at 1. cbn [append]. rewrite truthy_nonempty. reflexivity.
Qed.

Lemma uploaded_url_leads_back_example :
  let env := sample_env [] false false in
  let entry := {| file := file_1; preview := "blob:0" |} in
  fst (upload_one env entry (mount None))
  = Ok (Some "https://cdn.test/products/uuid0.png")
  /\ exists path,
       storage_log (world (snd (upload_one env entry (mount None))))
       = storage_log (world (mount None)) ++ [Upload path file_1]
       /\ storage_log
            (world (snd (delete_one env
                           (Some "https://cdn.test/products/uuid0.png")
                           (mount None))))
          = storage_log (world (mount None)) ++ [Remove [path]].
Proof.
  cbv zeta. split; [vm_compute; reflexivity|].
  apply (uploaded_url_leads_back_to_its_object
           (sample_env [] false false) "https://cdn.test/"
           {| file := file_1; preview := "blob:0" |}
           (mount None) (mount None)
           "https://cdn.test/products/uuid0.png").
  - intros path. reflexivity.
  - reflexivity.
  - reflexivity.
  - vm_compute. reflexivity.
Defined.

(** ** Which write a submission sends *)

(** Product 7 is updated under its id. *)
Lemma write_is_update_example :
  let env := sample_env [] false false in
  let p := sample_product (Some 7%Z) [url_A] in
  db_log (world (snd (submit env (Some p) (mount (Some p)))))
  = [Update {| ProductData.name := "Lamp";
               ProductData.description := "A desk lamp";
               ProductData.price := 25;
               ProductData.images := [url_A] |} 7].
Proof.
  cbv zeta.
  apply (write_is_update_for_nonzero_id (sample_env [] false false)
           (sample_product (Some 7%Z) [url_A]) 7
           (mount (Some (sample_product (Some 7%Z) [url_A])))).
  - reflexivity.
  - discriminate.
  - vm_compute. reflexivity.
Defined.

(** The create form and a product without an id both insert. *)
Lemma write_is_insert_example :
  let env := sample_env [] false false in
  let p := sample_product None [url_A] in
  db_log (world (snd (submit env None (mount None))))
  = [Insert {| ProductData.name := EmptyString;
               ProductData.description := EmptyString;
               ProductData.price := 0;
               ProductData.images := [] |}]
  /\ db_log (world (snd (submit env (Some p) (mount (Some p)))))
     = [Insert {| ProductData.name := "Lamp";
                  ProductData.description := "A desk lamp";
                  ProductData.price := 25;
                  ProductData.images := [url_A] |}].
Proof.
  cbv zeta. split.
  - apply (write_is_insert_without_id (sample_env [] false false) None
             (mount None)).
    + reflexivity.
    + vm_compute. reflexivity.
  - apply (write_is_insert_without_id (sample_env [] false false)
             (Some (sample_product None [url_A]))
             (mount (Some (sample_product None [url_A])))).
    + reflexivity.
    + vm_compute. reflexivity.
Defined.

(** ** The edit page *)

(** X17: when the record store has no row for the id of the route (or
    answers with an error, which the page does not read), the edit page
    shows the form of a new product -- all fields and lists empty -- and
    what that form submits is an insert, never an update. *)
Theorem edit_page_without_row_is_a_create_form
    (env : Env) (select_single : string -> option Product.t * option error)
    (params_id : string) (s : Sys) :
  fst (select_single params_id) = None ->
  all_strings (imagesToDelete (form s)) = true ->
  mount (EditProductPage select_single params_id) = mount None
  /\ db_log (world (snd (submit env (EditProductPage select_single params_id)
                           s)))
     = db_log (world s) ++ [Insert (product_data env s)].
Proof.
  intros Hnone Hall. unfold EditProductPage. rewrite Hnone.
  split; [reflexivity|].
  rewrite (submit_world_typed env None s Hall). cbv zeta. cbn [db_log].
  now rewrite write_call_insert.
Qed.

Lemma edit_page_without_row_example :
  let env := sample_env [] false false in
  let select_single :=
    fun _ : string =>
      (@None Product.t, Some (StoreError "no rows returned")) in
  let s := run env (EditProductPage select_single "42")
               [TypeName "Lamp"; TypePrice 25; DropFiles [file_1]]
               (mount (EditProductPage select_single "42")) in
  db_log (world (snd (submit env (EditProductPage select_single "42") s)))
  = [Insert {| ProductData.name := "Lamp";
               ProductData.description := EmptyString;
               ProductData.price := 25;
               ProductData.images :=
                 ["https://cdn.test/products/uuid0.png"] |}].
Proof.
  cbv zeta.
  apply (proj2 (edit_page_without_row_is_a_create_form
                  (sample_env [] false false)
                  (fun _ : string =>
                     (@None Product.t, Some (StoreError "no rows returned")))
                  "42"
                  (run (sample_env [] false false) None
                       [TypeName "Lamp"; TypePrice 25; DropFiles [file_1]]
                       (mount None))
                  eq_refl eq_refl)).
Defined.

(** X18: for a row the record store returns, the edit page mounts the form
    on it: every field starts as the field of the row -- name,
    description, price, images -- nothing is pending, marked, loading or
    selected, and -- the id of a stored row being present and not [0] -- a
    submission sends an update keyed by that id. *)
Theorem edit_page_with_row_updates_it
    (env : Env) (select_single : string -> option Product.t * option error)
    (params_id : string) (row : Product.t) (id : Z) (acts : list action) :
  fst (select_single params_id) = Some row ->
  Product.id row = Some id -> id <> 0%Z ->
  in_range_run env (Some row) acts (mount (Some row)) ->
  let initialProduct := EditProductPage select_single params_id in
  let s := run env initialProduct acts (mount initialProduct) in
  form (mount initialProduct)
  = {| name := Product.name row;
       description := Product.description row;
       price := Product.price row;
       newImageFiles := [];
       existingImages := Product.images row;
       imagesToDelete := [];
       isLoading := false;
       selectedImageUrl := None |}
  /\ world (mount initialProduct) = empty_world
  /\ db_log (world (snd (submit env initialProduct s)))
     = db_log (world s) ++ [Update (product_data env s) id].
Proof.
  intros Hrow Hid Hne Hrange. unfold EditProductPage. rewrite Hrow.
  cbv zeta. split; [reflexivity|]. split; [reflexivity|].
  rewrite submit_world_typed by now apply all_strings_run.
  cbv zeta. cbn [db_log].
  now rewrite (write_call_update (Some row) row id _ eq_refl Hid Hne).
Qed.

Lemma edit_page_with_row_example :
  let env := sample_env [] false false in
  let row := sample_product (Some 7%Z) [url_A; url_B] in
  let select_single := fun _ : string => (Some row, @None error) in
  let s := run env (EditProductPage select_single "7")
               [ClickRemoveExisting 0]
               (mount (EditProductPage select_single "7")) in
  form (mount (EditProductPage select_single "7"))
  = {| name := "Lamp";
       description := "A desk lamp";
       price := 25;
       newImageFiles := [];
       existingImages := [url_A; url_B];
       imagesToDelete := [];
       isLoading := false;
       selectedImageUrl := None |}
  /\ db_log (world (snd (submit env (EditProductPage select_single "7") s)))
     = [Update {| ProductData.name := "Lamp";
                  ProductData.description := "A desk lamp";
                  ProductData.price := 25;
                  ProductData.images := [url_B] |} 7].
Proof.
  cbv zeta.
  destruct (edit_page_with_row_updates_it
              (sample_env [] false false)
              (fun _ : string =>
                 (Some (sample_product (Some 7%Z) [url_A; url_B]),
                  @None error))
              "7" (sample_product (Some 7%Z) [url_A; url_B]) 7
              [ClickRemoveExisting 0])
    as (Hform & _ & Hlog).
  - reflexivity.
  - reflexivity.
  - discriminate.
  - cbn [in_range_run in_range_action]. repeat split; vm_compute;
      try reflexivity; discriminate.
  - split; [exact Hform | exact Hlog].
Defined.

(** * The product list *)




(** Of the products 3, 7 and 9 first 3 and then 7 is deleted from the same
    render, the store accepting both: two deletes were sent and the list
    shows 3 again. *)
Example handleDelete_twice_in_one_render :
  let store := {| ProductList.select_products := (None, None);
                  ProductList.delete_product := fun _ => None |} in
  let cap := {| ProductList.products :=
                  [sample_product (Some 3%Z) [];
                   sample_product (Some 7%Z) [url_A];
                   sample_product (Some 9%Z) [url_B]];
                ProductList.isLoading := false |} in
  let s := {| ProductList.state := cap;
              ProductList.outside :=
                {| ProductList.printed := []; ProductList.requests := [] |} |}
  in
  let s1 := snd (ProductList.handleDelete store cap 3 s) in
  let s2 := snd (ProductList.handleDelete store cap 7 s1) in
  map Product.id (ProductList.products (ProductList.state s1))
  = [Some 7%Z; Some 9%Z]
  /\ map Product.id (ProductList.products (ProductList.state s2))
     = [Some 3%Z; Some 9%Z]
  /\ ProductList.requests (ProductList.outside s2)
     = [ProductList.DeleteById 3; ProductList.DeleteById 7].
Proof. vm_compute. repeat split. Qed.

(** The store accepts the delete of product 7 of a list of three. *)
Example handleDelete_three_products :
  let store := {| ProductList.select_products := (None, None);
                  ProductList.delete_product := fun _ => None |} in
  let s := {| ProductList.state :=
                {| ProductList.products :=
                     [sample_product (Some 3%Z) [];
                      sample_product (Some 7%Z) [url_A];
                      sample_product None [url_B]];
                   ProductList.isLoading := false |};
              ProductList.outside :=
                {| ProductList.printed := []; ProductList.requests := [] |} |}
  in
  ProductList.products
    (ProductList.state
       (snd (ProductList.handleDelete store (ProductList.state s) 7 s)))
  = [sample_product (Some 3%Z) []; sample_product None [url_B]].
Proof. vm_compute. reflexivity. Qed.

(** X15: the Delete button of a card does nothing at all for a product
    without an id and for a product whose id is [0] -- no request is sent
    and the list stays -- because the click tests the id for truthiness;
    for every other product it runs [handleDelete] with the id. *)
Theorem delete_button_needs_truthy_id
    (store : ProductList.Store) (cap : ProductList.State)
    (product : Product.t) (s : ProductList.Page) :
  (Product.id product = None \/ Product.id product = Some 0%Z ->
   ProductList.onClickDelete store cap product s = (Ok tt, s))
  /\ (forall id, Product.id product = Some id -> id <> 0%Z ->
      ProductList.onClickDelete store cap product s
      = ProductList.handleDelete store cap id s).
Proof.
  unfold ProductList.onClickDelete. split.
  - intros [-> | ->]; reflexivity.
  - intros id -> Hne. simpl. destruct (Z.eqb_spec id 0); [contradiction|].
    reflexivity.
Qed.

Lemma delete_button_example :
  let store := {| ProductList.select_products := (None, None);
                  ProductList.delete_product := fun _ => None |} in
  let s := {| ProductList.state :=
                {| ProductList.products :=
                     [sample_product (Some 0%Z) [];
                      sample_product (Some 7%Z) [url_A]];
                   ProductList.isLoading := false |};
              ProductList.outside :=
                {| ProductList.printed := []; ProductList.requests := [] |} |}
  in
  ProductList.onClickDelete store (ProductList.state s)
    (sample_product (Some 0%Z) []) s = (Ok tt, s)
  /\ ProductList.requests
       (ProductList.outside
          (snd (ProductList.onClickDelete store (ProductList.state s)
                  (sample_product (Some 7%Z) [url_A]) s)))
     = [ProductList.DeleteById 7].
Proof.
  cbv zeta. split.
  - apply (proj1 (delete_button_needs_truthy_id _ _ _ _)).
    right. reflexivity.
  - rewrite (proj2 (delete_button_needs_truthy_id _ _
                      (sample_product (Some 7%Z) [url_A]) _) 7%Z eq_refl);
      [reflexivity | discriminate].
Defined.

(** X16: [fetchProducts] sends one select, never throws and clears the
    loading flag on every path.  An answer with an error leaves the list
    as it was and prints the error, also when it carries rows; an answer
    without error replaces the list by the rows, or by the empty list when
    there are none. *)
Theorem fetchProducts_always_stops_loading
    (store : ProductList.Store) (s : ProductList.Page) :
  let r := ProductList.fetchProducts store s in
  fst r = Ok tt
  /\ ProductList.isLoading (ProductList.state (snd r)) = false
  /\ ProductList.requests (ProductList.outside (snd r))
     = ProductList.requests (ProductList.outside s) ++ [ProductList.SelectAll]
  /\ match ProductList.select_products store with
     | (_, Some e) =>
         ProductList.products (ProductList.state (snd r))
         = ProductList.products (ProductList.state s)
         /\ ProductList.printed (ProductList.outside (snd r))
            = ProductList.printed (ProductList.outside s)
                ++ [ConsoleError "Error fetching products:" e]
     | (data, None) =>
         ProductList.products (ProductList.state (snd r))
         = match data with
           | Some rows => rows
           | None => []
           end
         /\ ProductList.printed (ProductList.outside (snd r))
            = ProductList.printed (ProductList.outside s)
     end.
Proof.
  cbv zeta. unfold ProductList.fetchProducts, se_try_catch_finally,
    se_try_catch, se_bind, ProductList.request. cbv beta iota zeta.
  destruct (ProductList.select_products store) as [data [e|]];
    cbn [fst snd]; repeat split.
Qed.

(** The list page from its first render: the fetch answers with three
    rows, then product 7 is deleted. *)
Example list_page_fetch_then_delete :
  let rows := [sample_product (Some 3%Z) [];
               sample_product (Some 7%Z) [url_A];
               sample_product (Some 9%Z) [url_B]] in
  let store := {| ProductList.select_products := (Some rows, None);
                  ProductList.delete_product := fun _ => None |} in
  let s1 := snd (ProductList.fetchProducts store ProductList.initialPage) in
  let s2 := snd (ProductList.onClickDelete store (ProductList.state s1)
                   (sample_product (Some 7%Z) [url_A]) s1) in
  ProductList.isLoading (ProductList.state s1) = false
  /\ map Product.id (ProductList.products (ProductList.state s2))
     = [Some 3%Z; Some 9%Z]
  /\ ProductList.requests (ProductList.outside s2)
     = [ProductList.SelectAll; ProductList.DeleteById 7].
Proof. vm_compute. repeat split. Qed.

(** ** Files dropped while a submission is in flight *)

Section InFlightRuns.

Variable env : Env.
Variable initialProduct : option Product.t.

Lemma drop_in_flight_run (acceptedFiles : list File) (s : Sys) :
  drop_in_flight env acceptedFiles s
  = let st := form s in
    (Ok tt,
     mkSys
       (mkFormState (name st) (description st) (price st)
                    (newImageFiles st
                       ++ drop_plan env (blob_next (world s)) acceptedFiles)
                    (existingImages st) (imagesToDelete st) (isLoading st)
                    (selectedImageUrl st))
       (with_more_blobs (length acceptedFiles) (world s))).
Proof. unfold drop_in_flight. rewrite onDrop_run. reflexivity. Qed.

Lemma write_product_during_drop_run
    (acceptedFiles : list File) (data : ProductData.t) (s : Sys) :
  write_product_during env initialProduct
    (drop_in_flight env acceptedFiles) data s
  = let st := form s in
    let w := world s in
    (match write_answer env initialProduct data with
     | None => Ok tt
     | Some e => Throw e
     end,
     mkSys
       (mkFormState (name st) (description st) (price st)
                    (newImageFiles st
                       ++ drop_plan env (blob_next w) acceptedFiles)
                    (existingImages st) (imagesToDelete st) (isLoading st)
                    (selectedImageUrl st))
       (mkWorld (revoked w)
                (console w ++ write_complaint env initialProduct data)
                (storage_log w) (db_log w ++ [write_call initialProduct data])
                (router_log w) (uuid_next w)
                (blob_next w + length acceptedFiles))).
Proof.
  destruct s as [st w].
  unfold write_product_during, write_complaint, write_answer, write_call.
  destruct (initialProduct_id initialProduct) as [id|];
    [destruct (JS.truthy_number (Some id))|];
    unfold update_product_during, insert_product_during, awaiting;
    unfold bind at 1; unfold bind at 1;
    unfold supabase_update, supabase_insert; unfold bind at 1;
    unfold db_request, upd_world; cbv beta iota; unfold ret at 1;
    cbv beta iota; unfold bind at 1; rewrite drop_in_flight_run;
    cbv beta iota zeta; unfold ret at 1; cbv beta iota;
    cbn [form world revoked console storage_log db_log router_log
           uuid_next blob_next with_more_blobs].
  - destruct (db_update env data id); unfold bind, console_log,
      console_print, upd_world, throw, ret; simpl; rewrite ?app_nil_r;
      reflexivity.
  - destruct (db_insert env data); unfold throw, ret; simpl;
      rewrite ?app_nil_r; reflexivity.
  - destruct (db_insert env data); unfold throw, ret; simpl;
      rewrite ?app_nil_r; reflexivity.
Qed.

(** A submission that reaches the record-store write while files are
    dropped: everything is as without the drop, except that
    [URL.createObjectURL] was called once per dropped file. *)
Lemma submit_with_drop_run (acceptedFiles : list File) (s : Sys) :
  all_strings (imagesToDelete (form s)) = true ->
  submit_with_drop env initialProduct acceptedFiles s
  = (Ok tt,
     mkSys (form_after_submit (form s))
           (with_more_blobs (length acceptedFiles)
              (world_after_submit env initialProduct s))).
Proof.
  intros Hall. destruct s as [st w]. cbn [form] in Hall.
  unfold submit_with_drop, handleSubmit_during.
  unfold bind at 1. unfold setIsLoading at 1, upd_form at 1.
  cbn [form world]. unfold try_catch_finally.
  unfold bind at 1. rewrite deleteOldImages_run. cbv beta iota zeta.
  cbn [form world]. unfold world_after_submit. cbn [form world].
  rewrite Hall.
  unfold bind at 1. rewrite uploadImages_run. cbv beta iota zeta.
  unfold bind at 1. rewrite write_product_during_drop_run.
  cbv beta iota zeta.
  cbn [form world revoked console storage_log db_log router_log uuid_next
         blob_next name description price newImageFiles existingImages
         imagesToDelete isLoading selectedImageUrl].
  unfold product_data, final_images. cbn [form world].
  destruct (write_answer _ _ _) as [e|]; cbv beta iota zeta.
  - unfold console_error, console_print, upd_world. cbn [form world
      revoked console storage_log db_log router_log uuid_next blob_next].
    unfold bind at 1. rewrite revoke_all_run. cbv beta iota zeta.
    unfold bind, setIsLoading, setNewImageFiles, setImagesToDelete,
      upd_form. simpl. unfold form_after_submit, with_more_blobs. simpl.
    rewrite <- !app_assoc, !app_nil_r. reflexivity.
  - unfold router_push, upd_world. cbn [form world
      revoked console storage_log db_log router_log uuid_next blob_next].
    unfold bind at 1. rewrite revoke_all_run. cbv beta iota zeta.
    unfold bind, setIsLoading, setNewImageFiles, setImagesToDelete,
      upd_form. simpl. unfold form_after_submit, with_more_blobs. simpl.
    rewrite <- !app_assoc, !app_nil_r. reflexivity.
Qed.

(** With nothing dropped the submission in flight is the submission. *)
Lemma submit_with_drop_nothing (s : Sys) :
  all_strings (imagesToDelete (form s)) = true ->
  submit_with_drop env initialProduct [] s = submit env initialProduct s.
Proof.
  intros Hall. rewrite submit_with_drop_run, submit_run by exact Hall.
  unfold with_more_blobs. cbn [length]. rewrite Nat.add_0_r.
  now destruct (world_after_submit env initialProduct s).
Qed.

End InFlightRuns.

(** C2 at a submission during which files are dropped: the [finally] block
    revokes the previews of the list its closure captured and then empties
    [newImageFiles] as it is by then.  The entries of the files dropped in
    the meantime are thrown away with their previews unrevoked: their
    object URLs were created, and afterwards they are neither pending nor
    revoked. *)
Theorem C2_preview_dropped_in_flight_is_not_released
    (env : Env) (initialProduct : option Product.t)
    (acceptedFiles : list File) (s : Sys) :
  all_strings (imagesToDelete (form s)) = true ->
  let r := submit_with_drop env initialProduct acceptedFiles s in
  let created := drop_plan env (blob_next (world s)) acceptedFiles in
  fst r = Ok tt
  /\ map file created = acceptedFiles
  /\ blob_next (world (snd r))
     = blob_next (world s) + length acceptedFiles
  /\ newImageFiles (form (snd r)) = []
  /\ imagesToDelete (form (snd r)) = []
  /\ revoked (world (snd r))
     = revoked (world s) ++ map preview (newImageFiles (form s))
  /\ (forall url,
        In url (map preview created) ->
        ~ In url (revoked (world s)) ->
        ~ In url (map preview (newImageFiles (form s))) ->
        ~ In url (revoked (world (snd r))
                    ++ map preview (newImageFiles (form (snd r))))).
Proof.
  intros Hall r created. subst r.
  rewrite (submit_with_drop_run env initialProduct acceptedFiles s Hall).
  cbn [fst snd form world]. unfold world_after_submit. cbv zeta.
  rewrite Hall. unfold with_more_blobs, form_after_submit.
  cbn [blob_next revoked newImageFiles imagesToDelete map].
  split; [reflexivity|]. split; [apply drop_plan_files|].
  repeat (split; [reflexivity|]).
  intros url _ Hrev Hpend Hin. rewrite app_nil_r in Hin.
  apply in_app_or in Hin as [Hin|Hin]; auto.
Qed.

(** One file is pending when the form is submitted, a second one is
    dropped while the record store is awaited: only the first preview is
    revoked, no entry is pending, and two object URLs were created. *)
Lemma C2_second_file_dropped_in_flight :
  let env := sample_env [] false false in
  let s := run env None [DropFiles [file_1]] (mount None) in
  let r := submit_with_drop env None [file_2] s in
  revoked (world (snd r)) = ["blob:0"]
  /\ newImageFiles (form (snd r)) = []
  /\ blob_next (world (snd r)) = 2
  /\ ~ In "blob:1"
       (revoked (world (snd r)) ++ map preview (newImageFiles (form (snd r)))).
Proof.
  cbv zeta.
  destruct (C2_preview_dropped_in_flight_is_not_released
              (sample_env [] false false) None [file_2]
              (run (sample_env [] false false) None [DropFiles [file_1]]
                   (mount None)))
    as (_ & _ & Hblob & Hnew & _ & Hrev & Hlost).
  - vm_compute. reflexivity.
  - split; [exact Hrev|]. split; [exact Hnew|]. split; [exact Hblob|].
    apply Hlost.
    + vm_compute. left. reflexivity.
    + vm_compute. intros [].
    + vm_compute. intros [H|[]]. discriminate H.
Defined.
